(** * The poll-and-checkpoint runner ([apify_runner.py]) and its store ([db.py])

    A shallow embedding of the runner: Python values as a tree, exceptions
    as an error monad, the files the runner touches and the MongoDB
    collection as an explicit [world] threaded through one poll cycle.

    Scope of the model.
    - A Python [str] is a [string] whose characters are code points below
      256; [title] treats only ASCII letters as cased.
    - A Python [float] is carried by its [repr] text.
    - A file written with [json.dump] and read back with [json.load] is
      modelled by the document it holds; a file whose text is not a JSON
      document is [Corrupt].  The state file, [log.jsonl], [error_log.txt]
      and the files under [data/] are distinct files.
    - Local file operations do not raise [OSError]; what can raise is the
      HTTP call, the driver's insert, and Python's own type errors.
    - [print] is not modelled, but evaluating its arguments is, since that
      can raise. *)

From Stdlib Require Import Ascii String ZArith.
From stdpp Require Import base strings list gmap pretty.

Local Open Scope string_scope.
Local Open Scope list_scope.

(** ** Exceptions and the error monad *)

Record exn := Exn { exn_class : string; exn_text : string }.

Inductive result (A : Type) : Type :=
| Ok (a : A)
| Raise (x : exn).
Arguments Ok {A} a.
Arguments Raise {A} x.

Definition bind {A B} (m : result A) (k : A -> result B) : result B :=
  match m with
  | Ok a => k a
  | Raise x => Raise x
  end.

Notation "x <- m ;; k" := (bind m (fun x => k))
  (at level 100, m at next level, right associativity).

Definition raised {A} (m : result A) : bool :=
  match m with Ok _ => false | Raise _ => true end.

(** ** Python values *)

(** The values the runner handles: what [json.load] and [res.json()] build,
    the driver's [ObjectId], and, for the encoder's last branch, an object
    of any other class, known by its class name and its printed form. *)
Unset Elimination Schemes.
Inductive value : Type :=
| VNone
| VBool (b : bool)
| VInt (z : Z)
| VFloat (r : string)
| VStr (s : string)
| VList (l : list value)
| VDict (d : list (string * value))
| VObjectId (hex : string)
| VObject (cls text : string).
Set Elimination Schemes.

(** Induction for the nested type: the hypothesis of a container is that
    the property holds of each component. *)
Fixpoint value_ind (P : value -> Prop)
    (HNone : P VNone) (HBool : forall b, P (VBool b)) (HInt : forall z, P (VInt z))
    (HFloat : forall r, P (VFloat r)) (HStr : forall s, P (VStr s))
    (HList : forall l, Forall P l -> P (VList l))
    (HDict : forall d, Forall (fun kv => P (snd kv)) d -> P (VDict d))
    (HOid : forall h, P (VObjectId h)) (HObj : forall c t, P (VObject c t))
    (v : value) {struct v} : P v :=
  let rec := value_ind P HNone HBool HInt HFloat HStr HList HDict HOid HObj in
  match v with
  | VNone => HNone
  | VBool b => HBool b
  | VInt z => HInt z
  | VFloat r => HFloat r
  | VStr s => HStr s
  | VList l =>
      HList l ((fix go (l : list value) : Forall P l :=
                  match l with
                  | [] => List.Forall_nil P
                  | x :: l' => List.Forall_cons P x l' (rec x) (go l')
                  end) l)
  | VDict d =>
      HDict d ((fix go (d : list (string * value)) : Forall (fun kv => P (snd kv)) d :=
                  match d with
                  | [] => List.Forall_nil _
                  | kv :: d' => List.Forall_cons _ kv d' (rec (snd kv)) (go d')
                  end) d)
  | VObjectId h => HOid h
  | VObject c t => HObj c t
  end.

(** A [dict] keeps insertion order; assigning to an existing key keeps the
    key's position. *)
Fixpoint dict_get {V} (k : string) (d : list (string * V)) : option V :=
  match d with
  | [] => None
  | (k', v) :: d' => if String.eqb k k' then Some v else dict_get k d'
  end.

Fixpoint dict_set {V} (k : string) (v : V) (d : list (string * V)) : list (string * V) :=
  match d with
  | [] => [(k, v)]
  | (k', v') :: d' =>
      if String.eqb k k' then (k', v) :: d' else (k', v') :: dict_set k v d'
  end.

Definition dict_has {V} (k : string) (d : list (string * V)) : bool :=
  match dict_get k d with Some _ => true | None => false end.

(** [d.get(k, default)] *)
Definition dict_get_or {V} (k : string) (default : V) (d : list (string * V)) : V :=
  match dict_get k d with Some v => v | None => default end.

(** ** Strings *)

Definition dquote : ascii := ascii_of_nat 34.
Definition backslash : ascii := ascii_of_nat 92.

Fixpoint join (sep : string) (l : list string) : string :=
  match l with
  | [] => ""
  | [s] => s
  | s :: l' => s +:+ sep +:+ join sep l'
  end.

(** [sub in s] *)
Fixpoint contains (sub s : string) : bool :=
  String.prefix sub s ||
  match s with
  | EmptyString => false
  | String _ s' => contains sub s'
  end.

(** [s.replace(old, new)] for a non-empty [old]: leftmost matches, not
    overlapping.  [skip] counts the characters of a match still to drop. *)
Fixpoint replace_go (old new : string) (skip : nat) (s : string) : string :=
  match s with
  | EmptyString => ""
  | String c s' =>
      match skip with
      | S k => replace_go old new k s'
      | O =>
          if String.prefix old s
          then new +:+ replace_go old new (String.length old - 1) s'
          else String c (replace_go old new O s')
      end
  end.

Definition py_replace (old new s : string) : string := replace_go old new 0 s.

(** [s.split(sep)] for a non-empty [sep]. *)
Fixpoint split_go (sep : string) (skip : nat) (cur : string) (s : string) : list string :=
  match s with
  | EmptyString => [cur]
  | String c s' =>
      match skip with
      | S k => split_go sep k cur s'
      | O =>
          if String.prefix sep s
          then cur :: split_go sep (String.length sep - 1) "" s'
          else split_go sep O (cur +:+ String c "") s'
      end
  end.

Definition py_split (sep s : string) : list string := split_go sep 0 "" s.

Fixpoint lstrip (c : ascii) (s : string) : string :=
  match s with
  | EmptyString => ""
  | String a s' => if Ascii.eqb a c then lstrip c s' else s
  end.

(** [s.strip(c)] for a one-character [c] *)
Definition py_strip (c : ascii) (s : string) : string :=
  String.rev (lstrip c (String.rev (lstrip c s))).

Definition is_upper (c : ascii) : bool :=
  let n := nat_of_ascii c in (65 <=? n)%nat && (n <=? 90)%nat.
Definition is_lower (c : ascii) : bool :=
  let n := nat_of_ascii c in (97 <=? n)%nat && (n <=? 122)%nat.
Definition to_upper (c : ascii) : ascii :=
  if is_lower c then ascii_of_nat (nat_of_ascii c - 32) else c.
Definition to_lower (c : ascii) : ascii :=
  if is_upper c then ascii_of_nat (nat_of_ascii c + 32) else c.

(** [s.title()]: a letter is upper-cased after a character that is not a
    letter and lower-cased after a letter. *)
Fixpoint title_go (prev_cased : bool) (s : string) : string :=
  match s with
  | EmptyString => ""
  | String c s' =>
      if is_upper c || is_lower c
      then String (if prev_cased then to_lower c else to_upper c) (title_go true s')
      else String c (title_go false s')
  end.

Definition py_title (s : string) : string := title_go false s.

Fixpoint lower (s : string) : string :=
  match s with
  | EmptyString => ""
  | String c s' => String (to_lower c) (lower s')
  end.

Definition hex_digit (n : nat) : ascii :=
  match String.get n "0123456789abcdef" with Some c => c | None => "0"%char end.

Definition hex2 (c : ascii) : string :=
  let n := nat_of_ascii c in
  String (hex_digit (n / 16)) (String (hex_digit (n mod 16)) "").

Fixpoint concat_map (f : ascii -> string) (s : string) : string :=
  match s with
  | EmptyString => ""
  | String c s' => f c +:+ concat_map f s'
  end.

(** ** What Python's built-ins do on a value *)

Definition py_type_name (v : value) : string :=
  match v with
  | VNone => "NoneType"
  | VBool _ => "bool"
  | VInt _ => "int"
  | VFloat _ => "float"
  | VStr _ => "str"
  | VList _ => "list"
  | VDict _ => "dict"
  | VObjectId _ => "ObjectId"
  | VObject cls _ => cls
  end.

Definition string_nonempty (s : string) : bool :=
  match s with EmptyString => false | _ => true end.

(** Truth value of a value, as [if v:] and [v or w] take it. *)
Definition truthy (v : value) : bool :=
  match v with
  | VNone => false
  | VBool b => b
  | VInt z => negb (Z.eqb z 0)
  | VFloat r => negb (String.eqb r "0.0" || String.eqb r "-0.0")
  | VStr s => string_nonempty s
  | VList l => match l with [] => false | _ => true end
  | VDict d => match d with [] => false | _ => true end
  | VObjectId _ => true
  | VObject _ _ => true
  end.

Definition chars (s : string) : list value :=
  (fun c => VStr (String c "")) <$> list_ascii_of_string s.

Definition type_error (msg : string) : exn := Exn "TypeError" msg.
Definition attribute_error (v : value) (attr : string) : exn :=
  Exn "AttributeError" ("'" +:+ py_type_name v +:+ "' object has no attribute '" +:+ attr +:+ "'").

(** [len(v)] *)
Definition py_len (v : value) : result nat :=
  match v with
  | VStr s => Ok (String.length s)
  | VList l => Ok (length l)
  | VDict d => Ok (length d)
  | _ => Raise (type_error ("object of type '" +:+ py_type_name v +:+ "' has no len()"))
  end.

(** What [for x in v] ranges over. *)
Definition py_iter (v : value) : result (list value) :=
  match v with
  | VStr s => Ok (chars s)
  | VList l => Ok l
  | VDict d => Ok ((fun kv => VStr (fst kv)) <$> d)
  | _ => Raise (type_error ("'" +:+ py_type_name v +:+ "' object is not iterable"))
  end.

(** [v.get(k, default)]: only a [dict] has [get]. *)
Definition py_get (v : value) (k : string) (default : value) : result value :=
  match v with
  | VDict d => Ok (dict_get_or k default d)
  | _ => Raise (attribute_error v "get")
  end.

(** [v[k]] for a string key, as in [config["actorId"]] and [url_obj["url"]]. *)
Definition py_getitem (v : value) (k : string) : result value :=
  match v with
  | VDict d =>
      match dict_get k d with
      | Some x => Ok x
      | None => Raise (Exn "KeyError" ("'" +:+ k +:+ "'"))
      end
  | VStr _ => Raise (type_error "string indices must be integers")
  | VList _ => Raise (type_error "list indices must be integers or slices, not str")
  | _ => Raise (type_error ("'" +:+ py_type_name v +:+ "' object is not subscriptable"))
  end.

(** [v[0]], as in [items[0]] and [start_urls[0]]. *)
Definition py_first (v : value) : result value :=
  match v with
  | VList (x :: _) => Ok x
  | VList [] => Raise (Exn "IndexError" "list index out of range")
  | VStr (String c _) => Ok (VStr (String c ""))
  | VStr EmptyString => Raise (Exn "IndexError" "string index out of range")
  | VDict _ => Raise (Exn "KeyError" "0")
  | _ => Raise (type_error ("'" +:+ py_type_name v +:+ "' object is not subscriptable"))
  end.

(** *** [repr] and [str] *)

Definition repr_char (q c : ascii) : string :=
  let n := nat_of_ascii c in
  if Ascii.eqb c backslash then String backslash (String backslash "")
  else if Ascii.eqb c q then String backslash (String q "")
  else if (n =? 10)%nat then String backslash "n"
  else if (n =? 13)%nat then String backslash "r"
  else if (n =? 9)%nat then String backslash "t"
  else if (n <? 32)%nat || ((127 <=? n)%nat && (n <=? 160)%nat) || (n =? 173)%nat
       then String backslash ("x" +:+ hex2 c)
  else String c "".

Definition py_repr_str (s : string) : string :=
  let q := if contains "'" s && negb (contains (String dquote "") s)
           then dquote else "'"%char in
  String q (concat_map (repr_char q) s) +:+ String q "".

Fixpoint py_repr (v : value) : string :=
  match v with
  | VNone => "None"
  | VBool true => "True"
  | VBool false => "False"
  | VInt z => pretty z
  | VFloat r => r
  | VStr s => py_repr_str s
  | VList l => "[" +:+ join ", " (map py_repr l) +:+ "]"
  | VDict d =>
      "{" +:+ join ", " (map (fun kv => py_repr_str (fst kv) +:+ ": " +:+ py_repr (snd kv)) d) +:+ "}"
  | VObjectId hex => "ObjectId('" +:+ hex +:+ "')"
  | VObject _ text => text
  end.

(** [str(v)] *)
Definition py_str (v : value) : string :=
  match v with
  | VStr s => s
  | VObjectId hex => hex
  | _ => py_repr v
  end.

(** ** JSON encoding *)

Definition not_serializable (obj : value) : exn :=
  type_error ("Object of type " +:+ py_type_name obj +:+ " is not JSON serializable").

(** [json.JSONEncoder.default]: always raises. *)
Definition JSONEncoder_default (obj : value) : result value :=
  Raise (not_serializable obj).

(** [MongoJSONEncoder.default] *)
Definition MongoJSONEncoder_default (obj : value) : result value :=
  match obj with
  | VObjectId _ => Ok (VStr (py_str obj))
  | _ => JSONEncoder_default obj
  end.

(** The document an encoder with the given [default] method emits for [v].
    The encoder hands every object that is not a JSON type to [default] and
    encodes what it returns; both methods above return a [str] or raise. *)
Fixpoint json_encode (default : value -> result value) (v : value) : result value :=
  match v with
  | VNone | VBool _ | VInt _ | VFloat _ | VStr _ => Ok v
  | VList l =>
      l' <- (fix go (l : list value) : result (list value) :=
               match l with
               | [] => Ok []
               | x :: r => x' <- json_encode default x ;; r' <- go r ;; Ok (x' :: r')
               end) l ;;
      Ok (VList l')
  | VDict d =>
      d' <- (fix go (d : list (string * value)) : result (list (string * value)) :=
               match d with
               | [] => Ok []
               | kv :: r =>
                   x' <- json_encode default (snd kv) ;; r' <- go r ;; Ok ((fst kv, x') :: r')
               end) d ;;
      Ok (VDict d')
  | VObjectId _ | VObject _ _ => default v
  end.

(** The JSON types: what [json.load] builds and the standard encoder takes. *)
Fixpoint json_native (v : value) : bool :=
  match v with
  | VNone | VBool _ | VInt _ | VFloat _ | VStr _ => true
  | VList l => forallb json_native l
  | VDict d => forallb (fun kv => json_native (snd kv)) d
  | VObjectId _ | VObject _ _ => false
  end.

(** JSON types and [ObjectId]s: what [MongoJSONEncoder] takes. *)
Fixpoint mongo_encodable (v : value) : bool :=
  match v with
  | VNone | VBool _ | VInt _ | VFloat _ | VStr _ | VObjectId _ => true
  | VList l => forallb mongo_encodable l
  | VDict d => forallb (fun kv => mongo_encodable (snd kv)) d
  | VObject _ _ => false
  end.

(** *** The text [json.dumps] produces (default separators, ASCII only) *)

Definition json_escape_char (c : ascii) : string :=
  let n := nat_of_ascii c in
  if Ascii.eqb c dquote then String backslash (String dquote "")
  else if Ascii.eqb c backslash then String backslash (String backslash "")
  else if (n =? 10)%nat then String backslash "n"
  else if (n =? 13)%nat then String backslash "r"
  else if (n =? 9)%nat then String backslash "t"
  else if (n =? 8)%nat then String backslash "b"
  else if (n =? 12)%nat then String backslash "f"
  else if (n <? 32)%nat || (126 <? n)%nat then String backslash ("u00" +:+ hex2 c)
  else String c "".

Definition json_string (s : string) : string :=
  String dquote (concat_map json_escape_char s) +:+ String dquote "".

Definition json_float (r : string) : string :=
  if String.eqb r "nan" then "NaN"
  else if String.eqb r "inf" then "Infinity"
  else if String.eqb r "-inf" then "-Infinity"
  else r.

Fixpoint json_dumps (v : value) : result string :=
  match v with
  | VNone => Ok "null"
  | VBool true => Ok "true"
  | VBool false => Ok "false"
  | VInt z => Ok (pretty z)
  | VFloat r => Ok (json_float r)
  | VStr s => Ok (json_string s)
  | VList l =>
      parts <- (fix go (l : list value) : result (list string) :=
                  match l with
                  | [] => Ok []
                  | x :: r => s <- json_dumps x ;; ss <- go r ;; Ok (s :: ss)
                  end) l ;;
      Ok ("[" +:+ join ", " parts +:+ "]")
  | VDict d =>
      parts <- (fix go (d : list (string * value)) : result (list string) :=
                  match d with
                  | [] => Ok []
                  | kv :: r =>
                      s <- json_dumps (snd kv) ;; ss <- go r ;;
                      Ok ((json_string (fst kv) +:+ ": " +:+ s) :: ss)
                  end) d ;;
      Ok ("{" +:+ join ", " parts +:+ "}")
  | VObjectId _ | VObject _ _ => Raise (not_serializable v)
  end.

(** ** The clock *)

Record datetime := {
  year : nat; month : nat; day : nat;
  hour : nat; minute : nat; second : nat; microsecond : nat }.

Fixpoint zeros (n : nat) : string :=
  match n with O => "" | S k => String "0" (zeros k) end.

Definition pad (width n : nat) : string :=
  let s := pretty n in zeros (width - String.length s) +:+ s.

Definition date_part (sep : string) (t : datetime) : string :=
  pad 4 (year t) +:+ sep +:+ pad 2 (month t) +:+ sep +:+ pad 2 (day t).

Definition time_part (sep : string) (t : datetime) : string :=
  pad 2 (hour t) +:+ sep +:+ pad 2 (minute t) +:+ sep +:+ pad 2 (second t).

Definition fraction (t : datetime) : string :=
  match microsecond t with O => "" | us => "." +:+ pad 6 us end.

(** [t.strftime("%Y%m%d%H%M%S")] *)
Definition strftime_run_id (t : datetime) : string :=
  date_part "" t +:+ time_part "" t.

(** [t.strftime("%I-%M%p").lower()] *)
Definition strftime_time_of_day (t : datetime) : string :=
  let h12 := match (hour t mod 12)%nat with O => 12%nat | h => h end in
  lower (pad 2 h12 +:+ "-" +:+ pad 2 (minute t) +:+ (if (hour t <? 12)%nat then "AM" else "PM")).

(** [t.isoformat()] of a UTC-aware [t] *)
Definition isoformat_utc (t : datetime) : string :=
  date_part "-" t +:+ "T" +:+ time_part ":" t +:+ fraction t +:+ "+00:00".

(** [str(t)] of a naive [t] *)
Definition str_datetime (t : datetime) : string :=
  date_part "-" t +:+ " " +:+ time_part ":" t +:+ fraction t.

(** ** The MongoDB collection and the driver *)

(** The stored documents, and the number of [insert_one] calls so far, from
    which the driver's fresh [ObjectId]s are drawn. *)
Record collection := { docs : list value; inserts : nat }.

Fixpoint hex_go (digits n : nat) (acc : string) : string :=
  match digits with
  | O => acc
  | S k => hex_go k (n / 16) (String (hex_digit (n mod 16)) acc)
  end.

(** The 24 hexadecimal digits of the [n]-th identifier. *)
Definition oid_hex (n : nat) : string := hex_go 24 n "".

(** The server's verdict on an insert: [Some x] when it rejects the document
    and the driver raises [x] (a duplicate key, a lost connection...). *)
Definition verdict := collection -> value -> option exn.

(** [collection.insert_one(document)]: the driver adds an [_id] to a document
    that has none, in place, before it sends it. *)
Definition insert_one (server : verdict) (c : collection) (document : list (string * value))
  : collection * list (string * value) * option exn :=
  let document :=
    if dict_has "_id" document then document
    else dict_set "_id" (VObjectId (oid_hex (inserts c))) document in
  match server c (VDict document) with
  | Some x => ({| docs := docs c; inserts := S (inserts c) |}, document, Some x)
  | None =>
      ({| docs := docs c ++ [VDict document]; inserts := S (inserts c) |}, document, None)
  end.

(** A unique index on [key], as [create_indices] of [db.py] declares on
    [url]: a document is rejected when a stored one has the same value of
    [key], a missing field counting as null.  Values are compared by their
    printed form. *)
Definition index_key (key : string) (doc : value) : string :=
  match doc with
  | VDict d => py_repr (dict_get_or key VNone d)
  | _ => py_repr VNone
  end.

Definition unique_index (key : string) : verdict := fun c doc =>
  if existsb (fun stored => String.eqb (index_key key stored) (index_key key doc)) (docs c)
  then Some (Exn "DuplicateKeyError"
               ("E11000 duplicate key error index: " +:+ key +:+ " dup key: " +:+ index_key key doc))
  else None.

(** ** Persistence: [save_items_to_db] *)

(** Lines 160-161, on one value of the item. *)
Definition stringify_id (val : value) : value :=
  match val with
  | VDict d =>
      match dict_get "_id" d with
      | Some i => VDict (dict_set "_id" (VStr (py_str i)) d)
      | None => val
      end
  | _ => val
  end.

(** Lines 159-161: the loop over [item.items()]. *)
Definition stringify_ids (item : list (string * value)) : list (string * value) :=
  map (fun kv => (fst kv, stringify_id (snd kv))) item.

(** Lines 164-167: the four assignments, for a [dict] of metadata. *)
Definition stamp (metadata item : list (string * value)) : list (string * value) :=
  let item := dict_set "source_type" (dict_get_or "source_type" (VStr "facebook") metadata) item in
  let item := dict_set "post_type" (dict_get_or "post_type" (VStr "post") metadata) item in
  let item := dict_set "source_name"
                (dict_get_or "source_name"
                   (dict_get_or "pageNameSource" (VStr "Facebook Page") item) metadata) item in
  dict_set "category" (dict_get_or "category" (VStr "Social Media") metadata) item.

(** The body of the loop for one [item]: the collection and the item as the
    body leaves them, and the exception the [except] clause caught, if any.
    [item.items()] raises on an item that is not a [dict], [metadata.get] on
    metadata that is not one. *)
Definition save_item (server : verdict) (metadata : value) (c : collection) (item : value)
  : collection * value * option exn :=
  match item with
  | VDict d =>
      let d := stringify_ids d in
      match metadata with
      | VDict m =>
          let '(c', d', failure) := insert_one server c (stamp m d) in
          (c', VDict d', failure)
      | _ => (c, VDict d, Some (attribute_error metadata "get"))
      end
  | _ => (c, item, Some (attribute_error item "items"))
  end.

(** What one call of [save_items_to_db] leaves behind. *)
Record saved := {
  success_count : nat;
  items_after : list value;      (* the items, mutated in place *)
  db_after : collection;
  warnings : list string }.      (* the [WARN] lines printed *)

Fixpoint save_loop (server : verdict) (metadata : value) (c : collection) (items : list value)
  : saved :=
  match items with
  | [] => {| success_count := 0; items_after := []; db_after := c; warnings := [] |}
  | item :: rest =>
      let '(c', item', failure) := save_item server metadata c item in
      let r := save_loop server metadata c' rest in
      {| success_count :=
           match failure with None => S (success_count r) | Some _ => success_count r end;
         items_after := item' :: items_after r;
         db_after := db_after r;
         warnings :=
           match failure with
           | None => warnings r
           | Some x => ("[WARN] Failed to insert item: " +:+ exn_text x) :: warnings r
           end |}
  end.

(** [save_items_to_db(items, metadata)].  Iterating a [str] or a [dict]
    yields strings, on which the body fails without changing [items]. *)
Definition save_items_to_db (server : verdict) (items metadata : value) (c : collection)
  : result (saved * value) :=
  elems <- py_iter items ;;
  let r := save_loop server metadata c elems in
  Ok (r, match items with VList _ => VList (items_after r) | _ => items end).

(** ** The outside world of one poll cycle *)

Record response := {
  status_code : Z;
  text : string;
  http_error : string;          (* the text of the [HTTPError] of this response *)
  json : result value }.        (* [res.json()] *)

Inductive http_outcome :=
| PostRaises (x : exn)          (* [requests.post] raised: timeout, connection *)
| Responded (res : response).

Record env := {
  post : http_outcome;
  server : verdict;
  json_loads : string -> result value;   (* [json.loads], line 242 *)
  clock_error_log : datetime;   (* [datetime.now()], line 107 *)
  clock_run_id : datetime;      (* line 247 *)
  clock_filename : datetime;    (* [datetime.now()], line 278 *)
  clock_snapshot : datetime;    (* line 284 *)
  clock_log : datetime;         (* line 292 *)
  clock_error : datetime }.     (* line 305 *)

Inductive file_content :=
| Doc (v : value)               (* the JSON document the file holds *)
| Corrupt.                      (* text that is not a JSON document *)

Record world := {
  state_file : option file_content;       (* [None]: the file does not exist *)
  run_log : list value;                   (* the lines of [log.jsonl] *)
  error_log : list string;                (* the lines of [error_log.txt] *)
  snapshots : gmap string file_content;   (* the files under [data/] *)
  db : collection }.

Definition set_state_file (f : option file_content) (w : world) : world :=
  {| state_file := f; run_log := run_log w; error_log := error_log w;
     snapshots := snapshots w; db := db w |}.
Definition set_run_log (l : list value) (w : world) : world :=
  {| state_file := state_file w; run_log := l; error_log := error_log w;
     snapshots := snapshots w; db := db w |}.
Definition set_error_log (l : list string) (w : world) : world :=
  {| state_file := state_file w; run_log := run_log w; error_log := l;
     snapshots := snapshots w; db := db w |}.
Definition set_snapshots (s : gmap string file_content) (w : world) : world :=
  {| state_file := state_file w; run_log := run_log w; error_log := error_log w;
     snapshots := s; db := db w |}.
Definition set_db (c : collection) (w : world) : world :=
  {| state_file := state_file w; run_log := run_log w; error_log := error_log w;
     snapshots := snapshots w; db := c |}.

(** Code that changes the world and may raise: the world it leaves is kept
    when it raises. *)
Definition M (A : Type) : Type := world -> world * result A.

Definition ret {A} (a : A) : M A := fun w => (w, Ok a).
Definition lift {A} (r : result A) : M A := fun w => (w, r).
Definition bindM {A B} (m : M A) (k : A -> M B) : M B := fun w =>
  match m w with
  | (w', Ok a) => k a w'
  | (w', Raise x) => (w', Raise x)
  end.

Notation "x <~ m ;; k" := (bindM m (fun x => k))
  (at level 100, m at next level, right associativity).

(** ** Configuration: the script's start-up, lines 221-228 *)

Record settings := {
  actor_id : value;
  input_template : value;
  frequency : value;
  source_metadata : value;
  start_urls : list value }.

Definition default_source_metadata : value :=
  VDict [("source_type", VStr "facebook"); ("post_type", VStr "post");
         ("source_name", VStr "Facebook Page"); ("category", VStr "Social Media")].

Fixpoint map_result {A B} (f : A -> result B) (l : list A) : result (list B) :=
  match l with
  | [] => Ok []
  | a :: l' => b <- f a ;; bs <- map_result f l' ;; Ok (b :: bs)
  end.

Definition is_str (s : string) (v : value) : bool :=
  match v with VStr s' => String.eqb s s' | _ => false end.

(** [s in v] for a string [s] *)
Definition py_in (s : string) (v : value) : result bool :=
  match v with
  | VStr t => Ok (contains s t)
  | VList l => Ok (existsb (is_str s) l)
  | VDict d => Ok (dict_has s d)
  | _ => Raise (type_error ("argument of type '" +:+ py_type_name v +:+ "' is not iterable"))
  end.

(** [url.split('facebook.com/')[-1].strip('/')], then
    [page_id.replace(".", " ").title()] *)
Definition page_name (url : value) : result string :=
  match url with
  | VStr s =>
      let page_id := py_strip "/" (List.last (py_split "facebook.com/" s) "") in
      Ok (py_title (py_replace "." " " page_id))
  | _ => Raise (attribute_error url "split")
  end.

Definition extract_source_metadata (config : value) : result (value * list value) :=
  default_metadata <- py_get config "source_metadata" default_source_metadata ;;
  template <- py_getitem config "inputTemplate" ;;
  urls <- py_get template "startUrls" (VList []) ;;
  url_objs <- py_iter urls ;;
  start_urls <- map_result
                  (fun url_obj =>
                     match url_obj with
                     | VDict _ => py_getitem url_obj "url"
                     | _ => Ok url_obj
                     end) url_objs ;;
  match start_urls with
  | [] => Ok (default_metadata, start_urls)
  | url :: _ =>
      name <- py_get default_metadata "source_name" VNone ;;
      if truthy name then Ok (default_metadata, start_urls)
      else
        found <- py_in "facebook.com" url ;;
        if found then
          name <- page_name url ;;
          match default_metadata with
          | VDict m => Ok (VDict (dict_set "source_name" (VStr name) m), start_urls)
          | _ => Raise (type_error "object does not support item assignment")
          end
        else Ok (default_metadata, start_urls)
  end.

Definition startup (config : value) : result settings :=
  actor <- py_getitem config "actorId" ;;
  template <- py_getitem config "inputTemplate" ;;
  _ <- py_get config "stateFile" (VStr "state.json") ;;
  freq <- py_get config "frequency" (VInt 900) ;;
  extracted <- extract_source_metadata config ;;
  Ok {| actor_id := actor; input_template := template; frequency := freq;
        source_metadata := fst extracted; start_urls := snd extracted |}.

(** ** State store *)

Definition zero_checkpoint : value := VDict [("lastTimestamp", VStr "")].

Definition json_decode_error : exn :=
  Exn "JSONDecodeError" "Expecting value: line 1 column 1 (char 0)".

(** [load_state(path)] *)
Definition load_state (f : option file_content) : result value :=
  match f with
  | Some (Doc v) => Ok v
  | Some Corrupt => Raise json_decode_error
  | None => Ok zero_checkpoint
  end.

(** [save_state(path, timestamp)]: [open(path, "w")] empties the file before
    [json.dump] runs, so an encoding error leaves it without a document. *)
Definition save_state (timestamp : value) : M unit := fun w =>
  match json_encode JSONEncoder_default (VDict [("lastTimestamp", timestamp)]) with
  | Ok doc => (set_state_file (Some (Doc doc)) w, Ok tt)
  | Raise x => (set_state_file (Some Corrupt) w, Raise x)
  end.

(** ** Source client: [run_actor_and_get_items] *)

Definition raise_for_status (res : response) : result unit :=
  if (400 <=? status_code res)%Z && (status_code res <? 600)%Z
  then Raise (Exn "HTTPError" (http_error res))
  else Ok tt.

(** Lines 116-121 *)
Definition extract_items (response_data : value) : value :=
  match response_data with
  | VList _ => response_data
  | VDict d => dict_get_or "data" (VList []) d
  | _ => VList []
  end.

(** The request (actor, token, input) goes to the outside world, whose answer
    is [post e]. *)
Definition run_actor_and_get_items (e : env) : M value := fun w =>
  match post e with
  | PostRaises x => (w, Raise x)
  | Responded res =>
      let w :=
        if (status_code res =? 200)%Z then w
        else set_error_log
               (error_log w ++
                  ["[" +:+ str_datetime (clock_error_log e) +:+ "] API Error: " +:+ text res]) w in
      (w, _ <- raise_for_status res ;;
          response_data <- json res ;;
          Ok (extract_items response_data))
  end.

(** ** Run logger *)

(** [log_run(data)]: [json.dumps] runs before anything is written. *)
Definition log_run (data : value) : M unit := fun w =>
  match json_encode MongoJSONEncoder_default data with
  | Ok line => (set_run_log (run_log w ++ [line]) w, Ok tt)
  | Raise x => (w, Raise x)
  end.

Definition log_entry (run_at : datetime) (run_id : value) (status : string)
    (item_count : nat) (latest_ts error : value) : value :=
  VDict [("runAt", VStr (isoformat_utc run_at +:+ "Z")); ("runId", run_id);
         ("status", VStr status); ("itemCount", VInt (Z.of_nat item_count));
         ("latestTimestamp", latest_ts); ("error", error)].

(** ** Orchestrator: one turn of the [while True] loop *)

Definition placeholder : string := "__LAST_TIMESTAMP__".

Definition py_copy (v : value) : result value :=
  match v with
  | VDict _ | VList _ => Ok v
  | _ => Raise (attribute_error v "copy")
  end.

(** [sep.join(l)]: every element has to be a [str]. *)
Definition py_join (sep : string) (l : list value) : result string :=
  parts <- map_result
             (fun v =>
                match v with
                | VStr s => Ok s
                | _ => Raise (type_error ("sequence item: expected str instance, " +:+
                                          py_type_name v +:+ " found"))
                end) l ;;
  Ok (join sep parts).

(** Lines 233-244, which run before the [try]: the checkpoint is loaded and
    the request is built from the template. *)
Definition prepare (cfg : settings) (e : env) (w : world) : result value :=
  state <- load_state (state_file w) ;;
  last_ts <- py_get state "lastTimestamp" (VStr "") ;;
  actor_input <- py_copy (input_template cfg) ;;
  actor_input_str <- json_dumps actor_input ;;
  actor_input <-
    (if contains placeholder actor_input_str then
       match (if truthy last_ts then last_ts else VStr "") with
       | VStr new => json_loads e (py_replace placeholder new actor_input_str)
       | v => Raise (type_error ("replace() argument 2 must be str, not " +:+ py_type_name v))
       end
     else Ok actor_input) ;;
  _ <- py_join ", " (start_urls cfg) ;;
  Ok actor_input.

Definition snapshot_name (t : datetime) : string :=
  "data/apify_response_" +:+ strftime_time_of_day t +:+ ".json".

(** Lines 278-288: [open(response_filename, "w")] empties the file before
    [json.dump] runs. *)
Definition write_snapshot (e : env) (items : value) : M unit := fun w =>
  let name := snapshot_name (clock_filename e) in
  match json_encode MongoJSONEncoder_default
          (VDict [("runAt", VStr (isoformat_utc (clock_snapshot e) +:+ "Z")); ("data", items)]) with
  | Ok doc => (set_snapshots (<[name := Doc doc]> (snapshots w)) w, Ok tt)
  | Raise x => (set_snapshots (<[name := Corrupt]> (snapshots w)) w, Raise x)
  end.

(** [display_metadata_summary] only prints; evaluating what it prints calls
    [metadata.get]. *)
Definition display_metadata_summary (metadata : value) : result unit :=
  _ <- py_get metadata "source_name" (VStr "Unknown") ;; Ok tt.

(** Lines 255-269: the branch taken when [items] is truthy.  It yields the
    items as persistence left them and [latest_ts]. *)
Definition persist_and_checkpoint (cfg : settings) (e : env) (items : value)
  : M (value * value) :=
  fun w =>
    match save_items_to_db (server e) items (source_metadata cfg) (db w) with
    | Raise x => (w, Raise x)
    | Ok (r, items) =>
        (_ <~ lift (display_metadata_summary (source_metadata cfg)) ;;
         first <~ lift (py_first items) ;;
         latest_ts <~ lift (py_get first "timestamp" VNone) ;;
         _ <~ (if truthy latest_ts then save_state latest_ts else ret tt) ;;
         ret (items, latest_ts)) (set_db (db_after r) w)
    end.

(** Lines 270-275: the branch taken when [items] is falsy. *)
Definition report_no_items (cfg : settings) (items : value) : M (value * value) :=
  _ <~ lift (match start_urls cfg with
             | [] => Ok tt
             | _ :: _ => display_metadata_summary (source_metadata cfg)
             end) ;;
  ret (items, VNone).

(** The body of the [try], lines 246-299. *)
Definition poll_attempt (cfg : settings) (e : env) : M unit :=
  items <~ run_actor_and_get_items e ;;
  let run_id := strftime_run_id (clock_run_id e) in
  _ <~ lift (py_len items) ;;
  _ <~ lift (py_get (source_metadata cfg) "source_name" VNone) ;;
  outcome <~ (if truthy items then persist_and_checkpoint cfg e items
              else report_no_items cfg items) ;;
  let items := fst outcome in
  let latest_ts := snd outcome in
  _ <~ write_snapshot e items ;;
  item_count <~ lift (py_len items) ;;
  log_run (log_entry (clock_log e) (VStr run_id) "SUCCEEDED" item_count latest_ts VNone).

(** The [except] clause, lines 301-311. *)
Definition log_failure (e : env) (x : exn) : M unit :=
  log_run (log_entry (clock_error e) VNone "ERROR" 0 VNone (VStr (exn_text x))).

(** [time.sleep(frequency)] converts the seconds to a count of nanoseconds
    in 64 bits, rounding away from zero, and only then rejects a negative
    length.  [too_large] is the [OverflowError] of that conversion. *)
Definition too_large : exn :=
  Exn "OverflowError" "timestamp too large to convert to C _PyTime_t".

Definition digit_of (c : ascii) : option Z :=
  let n := Z.of_nat (nat_of_ascii c) in
  if (48 <=? n)%Z && (n <=? 57)%Z then Some (n - 48)%Z else None.

(** The leading digits of [s] as a number, and what follows them. *)
Fixpoint read_whole (s : string) (acc : Z) : Z * string :=
  match s with
  | EmptyString => (acc, s)
  | String c s' =>
      match digit_of c with
      | Some d => read_whole s' (10 * acc + d)
      | None => (acc, s)
      end
  end.

(** [places] further decimal places read off [s], zeros past its digits. *)
Fixpoint read_places (places : nat) (s : string) (acc : Z) : Z :=
  match places with
  | O => acc
  | S k =>
      match s with
      | String c s' =>
          match digit_of c with
          | Some d => read_places k s' (10 * acc + d)
          | None => read_places k "" (10 * acc)
          end
      | EmptyString => read_places k "" (10 * acc)
      end
  end.

(** The millionths in a numeral written without sign or exponent, cut
    after the sixth decimal place. *)
Definition millionths (s : string) : Z :=
  let '(whole, rest) := read_whole s 0 in
  read_places 6 (match rest with String "." fraction => fraction | _ => "" end) whole.

(** A whole number of seconds is in range up to 9223372036 either way.  A
    float is known by its [repr]: with an exponent it is at least 1e16 or
    below 1e-4 in size; without one it is in range up to 9223372036.854775
    seconds, the floats next to 2^63 nanoseconds being 9223372036.854774
    and 9223372036.854776.  Where the conversion succeeds on a length close
    to the bound, the operating system may still refuse the call, and the
    class of the exception right at the bound is the platform's; neither
    is modelled. *)
Definition py_sleep (secs : value) : result unit :=
  match secs with
  | VBool _ => Ok tt
  | VInt z =>
      if (z <? -9223372036)%Z || (9223372036 <? z)%Z then Raise too_large
      else if (z <? 0)%Z then Raise (Exn "ValueError" "sleep length must be non-negative")
      else Ok tt
  | VFloat r =>
      let negative := String.prefix "-" r in
      let size := if negative then lstrip "-" r else r in
      if String.eqb r "nan" then Raise (Exn "ValueError" "Invalid value NaN (not a number)")
      else if String.eqb size "inf" || contains "e+" size then Raise too_large
      else if negb (contains "e-" size) && (9223372036854775 <? millionths size)%Z
           then Raise too_large
      else if negative && negb (String.eqb r "-0.0")
           then Raise (Exn "ValueError" "sleep length must be non-negative")
      else Ok tt
  | _ => Raise (type_error ("'" +:+ py_type_name secs +:+
                            "' object cannot be interpreted as an integer"))
  end.

(** How one turn of the loop ends: the loop goes on to the next turn, or an
    exception leaves the loop and ends the process. *)
Inductive outcome :=
| Continue (w : world)
| Crashed (x : exn) (w : world).

(** The [except] clause and the sleep: what follows the body of the [try],
    given the world the body left and whether it raised. *)
Definition finish (cfg : settings) (e : env) (attempted : world * result unit) : outcome :=
  let '(w, handled) :=
    match attempted with
    | (w, Ok _) => (w, Ok tt)
    | (w, Raise x) => log_failure e x w
    end in
  match handled with
  | Raise x => Crashed x w
  | Ok _ =>
      match py_sleep (frequency cfg) with
      | Raise x => Crashed x w
      | Ok _ => Continue w
      end
  end.

Definition cycle (cfg : settings) (e : env) (w : world) : outcome :=
  match prepare cfg e w with
  | Raise x => Crashed x w
  | Ok _ => finish cfg e (poll_attempt cfg e w)
  end.

(** The loop, over the environments of its successive turns. *)
Fixpoint run (cfg : settings) (es : list env) (w : world) : outcome :=
  match es with
  | [] => Continue w
  | e :: es' =>
      match cycle cfg e w with
      | Continue w' => run cfg es' w'
      | Crashed x w' => Crashed x w'
      end
  end.

(** ** Reference data *)

(** The document [MongoJSONEncoder] writes for an encodable value: every
    [ObjectId] gives way to its string. *)
Fixpoint ids_as_strings (v : value) : value :=
  match v with
  | VList l => VList (map ids_as_strings l)
  | VDict d => VDict (map (fun kv => (fst kv, ids_as_strings (snd kv))) d)
  | VObjectId hex => VStr hex
  | _ => v
  end.

(** The world a turn of the loop leaves, however the turn ends. *)
Definition world_of (o : outcome) : world :=
  match o with Continue w => w | Crashed _ w => w end.

(** What [res.json()] returns is made of JSON types. *)
Definition env_native (e : env) : bool :=
  match post e with
  | Responded res => match json res with Ok v => json_native v | Raise _ => true end
  | PostRaises _ => true
  end.

(** The items of a turn, as fetched. *)
Definition fetched (e : env) : result value :=
  match post e with
  | PostRaises x => Raise x
  | Responded res =>
      _ <- raise_for_status res ;; response_data <- json res ;; Ok (extract_items response_data)
  end.

Definition metadata_keys : list string :=
  ["source_type"; "post_type"; "source_name"; "category"].

(** A stored document carries the four fields as [metadata] and the
    defaults give them. *)
Definition carries_metadata (metadata : list (string * value)) (doc : value) : Prop :=
  exists d,
    doc = VDict d /\
    dict_get "source_type" d = Some (dict_get_or "source_type" (VStr "facebook") metadata) /\
    dict_get "post_type" d = Some (dict_get_or "post_type" (VStr "post") metadata) /\
    dict_get "source_name" d =
      Some (dict_get_or "source_name"
              (dict_get_or "pageNameSource" (VStr "Facebook Page") d) metadata) /\
    dict_get "category" d = Some (dict_get_or "category" (VStr "Social Media") metadata).

Definition sample_time : datetime :=
  {| year := 2024; month := 1; day := 2; hour := 15; minute := 4; second := 5;
     microsecond := 0 |}.

Definition empty_world : world :=
  {| state_file := None; run_log := []; error_log := []; snapshots := ∅;
     db := {| docs := []; inserts := 0 |} |}.

(** A turn whose request answers 200 with [body]; the collection has the
    unique index on [url] of [create_indices].  The sample templates hold no
    placeholder, so line 242 is not reached and [json_loads] is not called. *)
Definition answering (body : value) : env :=
  {| post := Responded {| status_code := 200; text := ""; http_error := ""; json := Ok body |};
     server := unique_index "url";
     json_loads := fun _ => Raise json_decode_error;
     clock_error_log := sample_time; clock_run_id := sample_time;
     clock_filename := sample_time; clock_snapshot := sample_time;
     clock_log := sample_time; clock_error := sample_time |}.

(** The configuration and the response of the start-URL scenario. *)
Definition acme_config : value :=
  VDict [("actorId", VStr "X");
         ("inputTemplate",
          VDict [("startUrls", VList [VDict [("url", VStr "https://facebook.com/Acme")]])]);
         ("frequency", VInt 1)].

Definition acme_settings : settings :=
  {| actor_id := VStr "X";
     input_template :=
       VDict [("startUrls", VList [VDict [("url", VStr "https://facebook.com/Acme")]])];
     frequency := VInt 1;
     source_metadata := default_source_metadata;
     start_urls := [VStr "https://facebook.com/Acme"] |}.

Definition acme_item : value :=
  VDict [("timestamp", VStr "2024-01-01T00:00:00Z"); ("text", VStr "hi")].

(** ** Vocabulary of the statements *)

Definition is_dict (v : value) : bool :=
  match v with VDict _ => true | _ => false end.

(** The document the driver sends: the one it was given, with an [_id] if
    it had none. *)
Definition with_id (c : collection) (d : list (string * value)) : list (string * value) :=
  if dict_has "_id" d then d else dict_set "_id" (VObjectId (oid_hex (inserts c))) d.

(** The timestamp the loop reads off the first item after persistence. *)
Definition latest_of (item : list (string * value)) : value :=
  from_option stringify_id VNone (dict_get "timestamp" item).


Definition snapshot_doc (e : env) (items : value) : value :=
  VDict [("runAt", VStr (isoformat_utc (clock_snapshot e) +:+ "Z"));
         ("data", ids_as_strings items)].

Definition success_entry (e : env) (item_count : nat) (latest_ts : value) : value :=
  log_entry (clock_log e) (VStr (strftime_run_id (clock_run_id e))) "SUCCEEDED"
    item_count latest_ts VNone.

Definition error_entry (e : env) (x : exn) : value :=
  log_entry (clock_error e) VNone "ERROR" 0 VNone (VStr (exn_text x)).

(** An item as fetched and the same item as the loop body leaves it: beyond
    the four metadata fields and an [_id] the driver adds, each field holds
    what it held, up to the rewriting of lines 160-161. *)
Definition passes_through (item item' : value) : Prop :=
  match item with
  | VDict d =>
      exists d',
        item' = VDict d' /\
        forall k, ~ In k metadata_keys -> k <> "_id" \/ dict_has "_id" d = true ->
                  dict_get k d' = stringify_id <$> dict_get k d
  | _ => item' = item
  end.

(** ** Sample turns *)

Definition seen_url : string := "https://facebook.com/Acme/posts/1".

(** A store that already holds the post the next fetch returns, with the
    checkpoint of an earlier turn. *)
Definition stored_post : value :=
  VDict [("timestamp", VStr "2023-12-31T00:00:00Z"); ("url", VStr seen_url);
         ("source_type", VStr "facebook"); ("post_type", VStr "post");
         ("source_name", VStr "Facebook Page"); ("category", VStr "Social Media");
         ("_id", VObjectId (oid_hex 0))].

Definition seen_world : world :=
  {| state_file := Some (Doc (VDict [("lastTimestamp", VStr "2023-12-31T00:00:00Z")]));
     run_log := []; error_log := []; snapshots := ∅;
     db := {| docs := [stored_post]; inserts := 1 |} |}.


(** A state file whose text is not JSON. *)
Definition corrupt_world : world :=
  {| state_file := Some Corrupt; run_log := []; error_log := []; snapshots := ∅;
     db := {| docs := []; inserts := 0 |} |}.

(** A turn whose request times out. *)
Definition timing_out : env :=
  {| post := PostRaises (Exn "ReadTimeout" "Read timed out. (read timeout=600)");
     server := unique_index "url";
     json_loads := fun _ => Raise json_decode_error;
     clock_error_log := sample_time; clock_run_id := sample_time;
     clock_filename := sample_time; clock_snapshot := sample_time;
     clock_log := sample_time; clock_error := sample_time |}.

(** ** Further vocabulary *)

(** Whether the unique index on [key] files a stored document under [k]. *)
Definition has_key (key : string) (k : string) (stored : list value) : bool :=
  existsb (fun doc => String.eqb (index_key key doc) k) stored.

(** Nothing is taken from the collection, the run log or the error log. *)
Definition grows (w w' : world) : Prop :=
  docs (db w) `prefix_of` docs (db w') /\
  run_log w `prefix_of` run_log w' /\
  error_log w `prefix_of` error_log w'.

(** Code that only appends to them. *)
Definition keeps_growing {A} (m : M A) : Prop := forall w, grows w (m w).1.

(** The status of a Run Record. *)
Definition status_of (entry : value) : option value :=
  match entry with VDict d => dict_get "status" d | _ => None end.

(** ** Further sample turns *)

(** The scenario's settings with a frequency [time.sleep] rejects. *)
Definition hasty_settings : settings :=
  {| actor_id := VStr "X";
     input_template :=
       VDict [("startUrls", VList [VDict [("url", VStr "https://facebook.com/Acme")]])];
     frequency := VInt (-1);
     source_metadata := default_source_metadata;
     start_urls := [VStr "https://facebook.com/Acme"] |}.

(** Settings whose template asks for the items since the checkpoint. *)
Definition since_settings : settings :=
  {| actor_id := VStr "X";
     input_template := VDict [("since", VStr "__LAST_TIMESTAMP__")];
     frequency := VInt 1;
     source_metadata := default_source_metadata;
     start_urls := [] |}.

(** A state file holding a list, and one whose checkpoint is a number. *)
Definition list_state_world : world :=
  {| state_file := Some (Doc (VList [])); run_log := []; error_log := []; snapshots := ∅;
     db := {| docs := []; inserts := 0 |} |}.

Definition number_state_world : world :=
  {| state_file := Some (Doc (VDict [("lastTimestamp", VInt 5)]));
     run_log := []; error_log := []; snapshots := ∅;
     db := {| docs := []; inserts := 0 |} |}.

(** ** What a step leaves alone *)


(** ** Further sample configurations *)



Definition corp_item : value :=
  VDict [("timestamp", VStr "2024-01-01T00:00:00Z"); ("pageNameSource", VStr "Acme Corp")].

(** A configuration without start URLs whose [source_metadata] entry is a
    string, and the settings it loads into. *)
Definition text_metadata_config : value :=
  VDict [("actorId", VStr "X"); ("inputTemplate", VDict []); ("frequency", VInt 1);
         ("source_metadata", VStr "news")].

Definition text_metadata_settings : settings :=
  {| actor_id := VStr "X"; input_template := VDict []; frequency := VInt 1;
     source_metadata := VStr "news"; start_urls := [] |}.

(** ** Lemmas on dictionaries *)

Lemma dict_get_set_eq {V} (k : string) (v : V) d : dict_get k (dict_set k v d) = Some v.
Proof.
  induction d as [|[k' v'] d IH]; simpl.
  - by rewrite String.eqb_refl.
  - destruct (String.eqb k k') eqn:E; simpl; rewrite E; [done | exact IH].
Qed.

Lemma dict_get_set_ne {V} (k k' : string) (v : V) d :
  k <> k' -> dict_get k' (dict_set k v d) = dict_get k' d.
Proof.
  intros Hne. induction d as [|[k0 v0] d IH]; simpl.
  - destruct (String.eqb k' k) eqn:E; [|done].
    apply String.eqb_eq in E. congruence.
  - destruct (String.eqb k k0) eqn:E; simpl.
    + apply String.eqb_eq in E. subst k0.
      destruct (String.eqb k' k) eqn:E'; [|done].
      apply String.eqb_eq in E'. congruence.
    + by rewrite IH.
Qed.

Lemma dict_get_stringify_ids k d :
  dict_get k (stringify_ids d) = stringify_id <$> dict_get k d.
Proof.
  induction d as [|[k' v'] d IH]; simpl; [done|].
  destruct (String.eqb k k'); [done | exact IH].
Qed.

Lemma dict_get_Forall {V} (P : V -> Prop) k d v :
  Forall (fun kv => P (snd kv)) d -> dict_get k d = Some v -> P v.
Proof.
  induction 1 as [|[k' v'] d Hv _ IH]; simpl; [done|].
  destruct (String.eqb k k'); [|exact IH].
  intros [= <-]. exact Hv.
Qed.

Lemma dict_set_Forall {V} (P : V -> Prop) k v d :
  P v -> Forall (fun kv => P (snd kv)) d -> Forall (fun kv => P (snd kv)) (dict_set k v d).
Proof.
  intros Hv. induction 1 as [|[k' v'] d Hv' Hd IH]; simpl.
  - by constructor.
  - destruct (String.eqb k k'); constructor; auto.
Qed.

(** ** Lemmas on the encoders *)

Lemma forallb_Forall_true {A} (f : A -> bool) l :
  forallb f l = true <-> Forall (fun a => f a = true) l.
Proof.
  induction l as [|a l IH]; simpl.
  - split; [constructor | done].
  - rewrite andb_true_iff, IH. split.
    + intros [??]. by constructor.
    + by inversion 1.
Qed.

Lemma json_encode_native default v : json_native v = true -> json_encode default v = Ok v.
Proof.
  induction v as [| | | | |l IH|d IH| |] using value_ind; simpl; try done.
  - intros Hn. apply forallb_Forall_true in Hn.
    assert ((fix go (l0 : list value) : result (list value) :=
               match l0 with
               | [] => Ok []
               | x :: r => x' <- json_encode default x ;; r' <- go r ;; Ok (x' :: r')
               end) l = Ok l) as ->; [|done].
    induction IH as [|x l Hx _ IHl]; [done|].
    inversion Hn; subst. rewrite Hx by done. simpl. rewrite IHl by done. done.
  - intros Hn. apply forallb_Forall_true in Hn.
    assert ((fix go (d0 : list (string * value)) : result (list (string * value)) :=
               match d0 with
               | [] => Ok []
               | kv :: r =>
                   x' <- json_encode default (snd kv) ;; r' <- go r ;; Ok ((fst kv, x') :: r')
               end) d = Ok d) as ->; [|done].
    induction IH as [|[k x] d Hx _ IHd]; [done|].
    inversion Hn; subst. simpl in *. rewrite Hx by done. simpl. rewrite IHd by done. done.
Qed.

Lemma json_encode_mongo v :
  mongo_encodable v = true ->
  json_encode MongoJSONEncoder_default v = Ok (ids_as_strings v).
Proof.
  induction v as [| | | | |l IH|d IH| |] using value_ind; simpl; try done.
  - intros Hn. apply forallb_Forall_true in Hn.
    assert ((fix go (l0 : list value) : result (list value) :=
               match l0 with
               | [] => Ok []
               | x :: r =>
                   x' <- json_encode MongoJSONEncoder_default x ;; r' <- go r ;; Ok (x' :: r')
               end) l = Ok (map ids_as_strings l)) as ->; [|done].
    induction IH as [|x l Hx _ IHl]; [done|].
    inversion Hn; subst. rewrite Hx by done. simpl. rewrite IHl by done. done.
  - intros Hn. apply forallb_Forall_true in Hn.
    assert ((fix go (d0 : list (string * value)) : result (list (string * value)) :=
               match d0 with
               | [] => Ok []
               | kv :: r =>
                   x' <- json_encode MongoJSONEncoder_default (snd kv) ;; r' <- go r ;;
                   Ok ((fst kv, x') :: r')
               end) d = Ok (map (fun kv => (fst kv, ids_as_strings (snd kv))) d)) as ->; [|done].
    induction IH as [|[k x] d Hx _ IHd]; [done|].
    inversion Hn; subst. simpl in *. rewrite Hx by done. simpl. rewrite IHd by done. done.
Qed.

Lemma ids_as_strings_native v : mongo_encodable v = true -> json_native (ids_as_strings v) = true.
Proof.
  induction v as [| | | | |l IH|d IH| |] using value_ind; simpl; try done.
  - intros Hn. apply forallb_Forall_true in Hn. apply forallb_Forall_true.
    induction IH as [|x l Hx _ IHl]; simpl; [constructor|].
    inversion Hn; subst. constructor; auto.
  - intros Hn. apply forallb_Forall_true in Hn. apply forallb_Forall_true.
    induction IH as [|[k x] d Hx _ IHd]; simpl; [constructor|].
    inversion Hn; subst. constructor; auto.
Qed.

Lemma native_encodable v : json_native v = true -> mongo_encodable v = true.
Proof.
  induction v as [| | | | |l IH|d IH| |] using value_ind; simpl; try done.
  - intros Hn. apply forallb_Forall_true in Hn. apply forallb_Forall_true.
    induction IH as [|x l Hx _ IHl]; [constructor|].
    inversion Hn; subst. constructor; auto.
  - intros Hn. apply forallb_Forall_true in Hn. apply forallb_Forall_true.
    induction IH as [|[k x] d Hx _ IHd]; [constructor|].
    inversion Hn; subst. constructor; auto.
Qed.

(** ** Lemmas on persistence *)

Ltac key_ne := let H := fresh in intros H; discriminate H.

Lemma stamp_frame m d k :
  ~ In k metadata_keys -> dict_get k (stamp m d) = dict_get k d.
Proof.
  intros Hk. unfold stamp.
  rewrite !dict_get_set_ne; [done| | | |]; intros <-; apply Hk; simpl; auto.
Qed.

Lemma stamp_fields m d : carries_metadata m (VDict (stamp m d)).
Proof.
  exists (stamp m d). split; [done|].
  assert (dict_get_or "pageNameSource" (VStr "Facebook Page") (stamp m d) =
          dict_get_or "pageNameSource" (VStr "Facebook Page") d) as ->.
  { unfold dict_get_or. rewrite stamp_frame; [done|]. simpl. intuition discriminate. }
  unfold stamp.
  repeat split.
  - rewrite !dict_get_set_ne by key_ne. apply dict_get_set_eq.
  - rewrite !dict_get_set_ne by key_ne. apply dict_get_set_eq.
  - rewrite dict_get_set_ne by key_ne. rewrite dict_get_set_eq.
    unfold dict_get_or at 2. rewrite !dict_get_set_ne by key_ne. done.
  - apply dict_get_set_eq.
Qed.

Lemma insert_one_spec server c d :
  insert_one server c d =
    ({| docs := docs c ++ match server c (VDict (with_id c d)) with
                          | None => [VDict (with_id c d)]
                          | Some _ => []
                          end;
        inserts := S (inserts c) |},
     with_id c d, server c (VDict (with_id c d))).
Proof.
  unfold insert_one, with_id.
  destruct (server c _) eqn:E; rewrite ?app_nil_r; reflexivity.
Qed.

Lemma with_id_frame c d k : k <> "_id" -> dict_get k (with_id c d) = dict_get k d.
Proof.
  intros Hk. unfold with_id. destruct (dict_has "_id" d); [done|].
  by apply dict_get_set_ne.
Qed.

Lemma with_id_carries m c d :
  carries_metadata m (VDict d) -> carries_metadata m (VDict (with_id c d)).
Proof.
  intros (d0 & [= <-] & H1 & H2 & H3 & H4).
  exists (with_id c d). unfold dict_get_or in *.
  rewrite !with_id_frame by key_ne. done.
Qed.

(** What one turn of the loop body adds to the collection. *)
Lemma save_item_docs server metadata c item :
  exists new,
    docs (save_item server metadata c item).1.1 = docs c ++ new /\
    (new = [] \/ new = [(save_item server metadata c item).1.2]) /\
    (new = [] <-> (save_item server metadata c item).2 <> None).
Proof.
  unfold save_item. destruct item; try (exists []; rewrite app_nil_r; naive_solver).
  destruct metadata; try (exists []; rewrite app_nil_r; naive_solver).
  rewrite insert_one_spec. simpl.
  destruct (server _ _); eexists; (split; [reflexivity|]); naive_solver.
Qed.

Lemma save_item_grows server metadata c item c' item' failure :
  save_item server metadata c item = (c', item', failure) ->
  docs c' = docs c ++ match failure with None => [item'] | Some _ => [] end.
Proof.
  unfold save_item.
  destruct item; try (intros [= <- <- <-]; by rewrite app_nil_r).
  destruct metadata; try (intros [= <- <- <-]; by rewrite app_nil_r).
  rewrite insert_one_spec. intros [= <- <- <-]. simpl.
  by destruct (server _ _).
Qed.

Lemma save_item_carries server m c item c' item' :
  save_item server (VDict m) c item = (c', item', None) -> carries_metadata m item'.
Proof.
  unfold save_item. destruct item; try discriminate.
  rewrite insert_one_spec. intros [= <- <- _].
  apply with_id_carries, stamp_fields.
Qed.

Lemma save_loop_counts server metadata l : forall c,
  let r := save_loop server metadata c l in
  exists new,
    docs (db_after r) = docs c ++ new /\
    length new = success_count r /\
    success_count r + length (warnings r) = length l /\
    length (items_after r) = length l /\
    sublist new (items_after r) /\
    forall m, metadata = VDict m -> Forall (carries_metadata m) new.
Proof.
  induction l as [|item rest IH]; intros c; simpl.
  - exists []. rewrite app_nil_r. repeat split; auto using sublist_nil.
  - destruct (save_item server metadata c item) as [[c' item'] failure] eqn:E.
    destruct (IH c') as (new & Hdocs & Hlen & Hsum & Hitems & Hsub & Hmeta).
    pose proof (save_item_grows _ _ _ _ _ _ _ E) as Hc'.
    simpl. destruct failure as [x|].
    + exists new. rewrite app_nil_r in Hc'. rewrite Hdocs, Hc'. simpl.
      repeat split; auto using sublist_cons with lia.
    + exists (item' :: new). rewrite Hdocs, Hc', <- app_assoc. simpl.
      repeat split; auto using sublist_skip with lia.
      intros m ->. constructor; [|by apply Hmeta].
      eapply save_item_carries, E.
Qed.

(** ** Lemmas on the JSON types through persistence *)

Lemma native_dict_Forall d :
  json_native (VDict d) = true <-> Forall (fun kv => json_native (snd kv) = true) d.
Proof. simpl. apply forallb_Forall_true. Qed.

Lemma encodable_dict_Forall d :
  mongo_encodable (VDict d) = true <-> Forall (fun kv => mongo_encodable (snd kv) = true) d.
Proof. simpl. apply forallb_Forall_true. Qed.

Lemma stringify_id_native v : json_native v = true -> json_native (stringify_id v) = true.
Proof.
  destruct v; simpl; try done.
  destruct (dict_get "_id" d) eqn:E; [|done].
  intros Hd. apply forallb_Forall_true. apply forallb_Forall_true in Hd.
  by apply (dict_set_Forall (fun v => json_native v = true)).
Qed.

Lemma stringify_ids_native d :
  json_native (VDict d) = true -> json_native (VDict (stringify_ids d)) = true.
Proof.
  rewrite !native_dict_Forall. unfold stringify_ids.
  induction 1 as [|[k v] d Hv Hd IH]; simpl; constructor; auto.
  by apply stringify_id_native.
Qed.

Lemma dict_get_or_Forall {V} (P : V -> Prop) k default d :
  P default -> Forall (fun kv => P (snd kv)) d -> P (dict_get_or k default d).
Proof.
  intros Hdef Hd. unfold dict_get_or.
  destruct (dict_get k d) eqn:E; [|done]. by eapply dict_get_Forall.
Qed.

Lemma stamp_native m d :
  json_native (VDict m) = true -> json_native (VDict d) = true ->
  json_native (VDict (stamp m d)) = true.
Proof.
  rewrite !native_dict_Forall. intros Hm Hd. unfold stamp.
  repeat (apply (dict_set_Forall (fun v => json_native v = true));
          [apply (dict_get_or_Forall (fun v => json_native v = true)); try done|]);
    try done.
  apply (dict_get_or_Forall (fun v => json_native v = true)); [done|].
  repeat (apply (dict_set_Forall (fun v => json_native v = true));
          [apply (dict_get_or_Forall (fun v => json_native v = true)); try done|]);
    done.
Qed.

Lemma with_id_encodable c d :
  json_native (VDict d) = true -> mongo_encodable (VDict (with_id c d)) = true.
Proof.
  intros Hd. apply native_encodable in Hd. unfold with_id.
  destruct (dict_has "_id" d); [done|].
  apply encodable_dict_Forall. apply encodable_dict_Forall in Hd.
  by apply (dict_set_Forall (fun v => mongo_encodable v = true)).
Qed.

Lemma save_item_encodable server metadata c item :
  json_native metadata = true -> json_native item = true ->
  mongo_encodable (save_item server metadata c item).1.2 = true.
Proof.
  intros Hm Hi. unfold save_item.
  destruct item; try (by apply native_encodable).
  destruct metadata; try (by apply native_encodable, stringify_ids_native).
  rewrite insert_one_spec. simpl.
  by apply with_id_encodable, stamp_native; [|apply stringify_ids_native].
Qed.

Lemma save_loop_encodable server metadata l : forall c,
  json_native metadata = true -> json_native (VList l) = true ->
  mongo_encodable (VList (items_after (save_loop server metadata c l))) = true.
Proof.
  induction l as [|item rest IH]; intros c Hm Hl; [done|].
  simpl in Hl. apply andb_true_iff in Hl as [Hi Hrest].
  simpl. pose proof (save_item_encodable server metadata c item Hm Hi) as Hitem.
  destruct (save_item server metadata c item) as [[c' item'] failure].
  simpl in *. rewrite Hitem. simpl. by apply IH.
Qed.

(** The first item as the loop body leaves it. *)
Lemma save_item_timestamp server m c d :
  exists d',
    (save_item server (VDict m) c (VDict d)).1.2 = VDict d' /\
    dict_get "timestamp" d' = stringify_id <$> dict_get "timestamp" d.
Proof.
  unfold save_item. rewrite insert_one_spec. simpl.
  eexists; split; [reflexivity|].
  rewrite with_id_frame by key_ne.
  rewrite stamp_frame by (simpl; intuition discriminate).
  apply dict_get_stringify_ids.
Qed.

(** ** Lemmas on the source client *)

Lemma fetch_result e w : (run_actor_and_get_items e w).2 = fetched e.
Proof. unfold run_actor_and_get_items, fetched. by destruct (post e). Qed.

Lemma fetch_frame e w :
  let w1 := (run_actor_and_get_items e w).1 in
  state_file w1 = state_file w /\ run_log w1 = run_log w /\
  snapshots w1 = snapshots w /\ db w1 = db w.
Proof.
  unfold run_actor_and_get_items. destruct (post e) as [x|res]; simpl; [done|].
  by destruct (status_code res =? 200)%Z.
Qed.

Lemma extract_items_native v : json_native v = true -> json_native (extract_items v) = true.
Proof.
  destruct v; simpl; try done.
  intros Hd. apply forallb_Forall_true in Hd.
  by apply (dict_get_or_Forall (fun v => json_native v = true)).
Qed.

Lemma fetched_native e items :
  env_native e = true -> fetched e = Ok items -> json_native items = true.
Proof.
  unfold env_native, fetched. destruct (post e) as [x|res]; [done|].
  destruct (raise_for_status res); [|done]. simpl.
  destruct (json res) as [v|x]; [|done]. simpl.
  intros Hv [= <-]. by apply extract_items_native.
Qed.

Lemma save_state_native ts w :
  json_native ts = true ->
  save_state ts w = (set_state_file (Some (Doc (VDict [("lastTimestamp", ts)]))) w, Ok tt).
Proof.
  intros Hts. unfold save_state.
  rewrite json_encode_native; [done|]. simpl. by rewrite Hts.
Qed.

Lemma write_snapshot_encodable e items w :
  mongo_encodable items = true ->
  write_snapshot e items w =
    (set_snapshots
       (<[snapshot_name (clock_filename e) :=
            Doc (VDict [("runAt", VStr (isoformat_utc (clock_snapshot e) +:+ "Z"));
                        ("data", ids_as_strings items)])]> (snapshots w)) w, Ok tt).
Proof.
  intros Hi. unfold write_snapshot.
  rewrite json_encode_mongo; [done|]. simpl. by rewrite Hi.
Qed.

Lemma log_run_native data w :
  json_native data = true -> log_run data w = (set_run_log (run_log w ++ [data]) w, Ok tt).
Proof. intros Hd. unfold log_run. by rewrite json_encode_native. Qed.

Lemma log_entry_native t run_id status n latest_ts error :
  json_native run_id = true -> json_native latest_ts = true -> json_native error = true ->
  json_native (log_entry t run_id status n latest_ts error) = true.
Proof. intros H1 H2 H3. simpl. by rewrite H1, H2, H3. Qed.

Lemma latest_of_native item : json_native (VDict item) = true -> json_native (latest_of item) = true.
Proof.
  intros Hi. unfold latest_of. destruct (dict_get "timestamp" item) as [ts|] eqn:E; [|done].
  simpl. apply stringify_id_native.
  apply native_dict_Forall in Hi.
  by apply (dict_get_Forall (fun v => json_native v = true) _ _ _ Hi E).
Qed.

Lemma report_no_items_dict cfg m items w :
  source_metadata cfg = VDict m -> report_no_items cfg items w = (w, Ok (items, VNone)).
Proof.
  intros Hm. unfold report_no_items, bindM, lift, ret. rewrite Hm.
  by destruct (start_urls cfg).
Qed.

Lemma save_loop_first server metadata c item rest :
  exists tail,
    items_after (save_loop server metadata c (item :: rest)) =
      (save_item server metadata c item).1.2 :: tail.
Proof. simpl. destruct (save_item server metadata c item) as [[??]?]. simpl. eauto. Qed.

(** What the truthy branch does on a list whose first item is a [dict],
    under metadata that is one. *)
Lemma persist_and_checkpoint_list cfg e w m item rest :
  source_metadata cfg = VDict m ->
  json_native (VDict item) = true ->
  let r := save_loop (server e) (VDict m) (db w) (VDict item :: rest) in
  persist_and_checkpoint cfg e (VList (VDict item :: rest)) w =
    ((if truthy (latest_of item)
      then set_state_file (Some (Doc (VDict [("lastTimestamp", latest_of item)])))
      else fun w => w) (set_db (db_after r) w),
     Ok (VList (items_after r), latest_of item)).
Proof.
  intros Hm Hi r. unfold persist_and_checkpoint. rewrite Hm.
  cbn -[save_loop]. fold r.
  destruct (save_item_timestamp (server e) m (db w) item) as (d' & Hd' & Hts).
  destruct (save_loop_first (server e) (VDict m) (db w) (VDict item) rest) as (tail & Htail).
  fold r in Htail. rewrite Hd' in Htail. rewrite Htail.
  unfold bindM, lift, ret. cbn -[save_loop].
  assert (dict_get_or "timestamp" VNone d' = latest_of item) as ->.
  { unfold dict_get_or, latest_of. rewrite Hts. by destruct (dict_get "timestamp" item). }
  rewrite <- Htail.
  destruct (truthy (latest_of item)) eqn:Et; [|done].
  rewrite save_state_native by (by apply latest_of_native). done.
Qed.

Lemma save_item_not_dict server metadata c item :
  is_dict item = false -> (save_item server metadata c item).1.2 = item.
Proof. by destruct item. Qed.

(** On anything but a list that starts with a [dict], the truthy branch
    raises before it reaches the checkpoint. *)
Lemma persist_and_checkpoint_raises cfg e w m items :
  source_metadata cfg = VDict m ->
  (forall item rest, items <> VList (VDict item :: rest)) ->
  exists x w',
    persist_and_checkpoint cfg e items w = (w', Raise x) /\
    state_file w' = state_file w /\ run_log w' = run_log w /\ snapshots w' = snapshots w.
Proof.
  intros Hm Hshape. unfold persist_and_checkpoint. rewrite Hm.
  destruct items as [| | | |s|l|d| |]; try (cbn; eauto 10; fail).
  - destruct s as [|c s]; cbn; eauto 10.
  - destruct l as [|first rest]; [cbn; eauto 10|].
    destruct (save_loop_first (server e) (VDict m) (db w) first rest)
      as (tail & Htail).
    cbn -[save_loop]. rewrite Htail. rewrite save_item_not_dict.
    + destruct first; cbn -[save_loop]; eauto 10. by destruct (Hshape d rest).
    + destruct first; try done. by destruct (Hshape d rest).
Qed.

Lemma classic_shape items :
  (exists item rest, items = VList (VDict item :: rest)) \/
  (forall item rest, items <> VList (VDict item :: rest)).
Proof.
  destruct items as [| | | | |[|[| | | | | |d| |] rest]| | |]; try (by right).
  left. eauto.
Qed.

Lemma py_len_truthy_false items n :
  py_len items = Ok n -> truthy items = false -> n = 0.
Proof.
  destruct items as [| | | |s|l|d| |]; simpl; try done.
  - destruct s; [by intros [= <-]|done].
  - destruct l; [by intros [= <-]|done].
  - destruct d; [by intros [= <-]|done].
Qed.

Lemma save_loop_length server metadata l c :
  length (items_after (save_loop server metadata c l)) = length l.
Proof. by destruct (save_loop_counts server metadata l c) as (_ & _ & _ & _ & H & _). Qed.

(** The body of the [try], case by case. *)
Lemma poll_attempt_spec cfg e w :
  env_native e = true -> json_native (source_metadata cfg) = true ->
  let w1 := (poll_attempt cfg e w).1 in
  match (poll_attempt cfg e w).2 with
  | Raise x =>
      state_file w1 = state_file w /\ run_log w1 = run_log w /\ snapshots w1 = snapshots w
  | Ok _ =>
      exists items items' latest n,
        fetched e = Ok items /\
        snapshots w1 =
          <[snapshot_name (clock_filename e) := Doc (snapshot_doc e items')]> (snapshots w) /\
        run_log w1 = run_log w ++ [success_entry e n latest] /\
        ((truthy items = false /\ items' = items /\ latest = VNone /\ n = 0 /\
          state_file w1 = state_file w /\ db w1 = db w) \/
         (exists item rest m,
            items = VList (VDict item :: rest) /\ source_metadata cfg = VDict m /\
            let r := save_loop (server e) (VDict m) (db w) (VDict item :: rest) in
            items' = VList (items_after r) /\ latest = latest_of item /\
            n = S (length rest) /\ db w1 = db_after r /\
            state_file w1 =
              if truthy (latest_of item)
              then Some (Doc (VDict [("lastTimestamp", latest_of item)]))
              else state_file w))
  end.
Proof.
  intros He Hm.
  destruct (poll_attempt cfg e w) as [w1 r1] eqn:E. cbn [fst snd].
  unfold poll_attempt, bindM at 1 in E.
  pose proof (fetch_result e w) as Hr. pose proof (fetch_frame e w) as (Hs & Hl & Hsn & Hdb).
  destruct (run_actor_and_get_items e w) as [w0 r0]. simpl in Hr, Hs, Hl, Hsn, Hdb. subst r0.
  destruct (fetched e) as [items|x] eqn:Ef; [|by injection E as <- <-].
  pose proof (fetched_native e items He Ef) as Hitems.
  unfold bindM at 1, lift at 1 in E.
  destruct (py_len items) as [n|x] eqn:En; [|by injection E as <- <-].
  unfold bindM at 1, lift at 1 in E.
  destruct (py_get (source_metadata cfg) "source_name" VNone) as [name|x] eqn:Eg;
    [|by injection E as <- <-].
  destruct (source_metadata cfg) as [| | | | | |m| |] eqn:Emd; try done.
  unfold bindM at 1 in E.
  destruct (truthy items) eqn:Et.
  - destruct (classic_shape items) as [(item & rest & ->)|Hshape].
    + simpl in Hitems. apply andb_true_iff in Hitems as [Hitem Hrest].
      rewrite (persist_and_checkpoint_list cfg e w0 m item rest Emd Hitem) in E.
      cbn -[save_loop truthy latest_of write_snapshot log_run py_len bindM] in E.
      rewrite Hdb in E.
      set (r := save_loop (server e) (VDict m) (db w) (VDict item :: rest)) in *.
      unfold bindM at 1 in E.
      rewrite write_snapshot_encodable in E.
      2:{ subst r. apply save_loop_encodable; [done|]. simpl. by rewrite Hitem, Hrest. }
      unfold bindM at 1, lift in E. cbn [py_len] in E.
      rewrite log_run_native in E.
      2:{ apply log_entry_native; [done| |done]. by apply latest_of_native. }
      injection E as <- <-.
      exists (VList (VDict item :: rest)), (VList (items_after r)), (latest_of item),
        (S (length rest)).
      split; [done|].
      assert (length (items_after r) = S (length rest)) as Hlen
        by (subst r; by rewrite save_loop_length).
      rewrite Hlen.
      split; [by destruct (truthy (latest_of item)); simpl; rewrite Hsn|].
      split; [by destruct (truthy (latest_of item)); simpl; rewrite Hl|].
      right. exists item, rest, m.
      repeat (split; [by destruct (truthy (latest_of item))|]).
      by destruct (truthy (latest_of item)); simpl; rewrite ?Hs.
    + destruct (persist_and_checkpoint_raises cfg e w0 m items Emd Hshape)
        as (x & w' & Hp & Hs' & Hl' & Hsn').
      rewrite Hp in E. injection E as <- <-.
      by rewrite Hs', Hl', Hsn'.
  - rewrite (report_no_items_dict cfg m items w0 Emd) in E. cbn [fst snd] in E.
    unfold bindM at 1 in E.
    rewrite write_snapshot_encodable in E by (by apply native_encodable).
    unfold bindM at 1, lift in E. rewrite En in E.
    rewrite log_run_native in E by done.
    injection E as <- <-. simpl.
    exists items, items, VNone, n. rewrite Hsn, Hl, Hs, Hdb.
    repeat split; auto. left. repeat split; auto.
    by eapply py_len_truthy_false.
Qed.

Lemma finish_ok cfg e w1 : world_of (finish cfg e (w1, Ok tt)) = w1.
Proof. unfold finish. by destruct (py_sleep (frequency cfg)). Qed.

Lemma finish_raise cfg e w1 x :
  finish cfg e (w1, Raise x) =
    let w' := set_run_log (run_log w1 ++ [error_entry e x]) w1 in
    match py_sleep (frequency cfg) with
    | Ok _ => Continue w'
    | Raise s => Crashed s w'
    end.
Proof. unfold finish, log_failure. by rewrite log_run_native. Qed.


(** A turn whose fetch yields nothing to persist. *)
Lemma poll_attempt_no_items cfg e w items n m :
  fetched e = Ok items -> py_len items = Ok n -> truthy items = false ->
  source_metadata cfg = VDict m -> mongo_encodable items = true ->
  exists w1,
    poll_attempt cfg e w = (w1, Ok tt) /\
    state_file w1 = state_file w /\ db w1 = db w /\
    snapshots w1 =
      <[snapshot_name (clock_filename e) := Doc (snapshot_doc e items)]> (snapshots w) /\
    run_log w1 = run_log w ++ [success_entry e n VNone].
Proof.
  intros Hf Hn Ht Hmd Henc.
  destruct (poll_attempt cfg e w) as [w1 r1] eqn:E.
  unfold poll_attempt, bindM at 1 in E.
  pose proof (fetch_result e w) as Hr. pose proof (fetch_frame e w) as (Hs & Hl & Hsn & Hdb).
  destruct (run_actor_and_get_items e w) as [w0 r0]. simpl in Hr, Hs, Hl, Hsn, Hdb. subst r0.
  rewrite Hf in E. unfold bindM at 1, lift at 1 in E. rewrite Hn in E.
  unfold bindM at 1, lift at 1 in E. rewrite Hmd in E. cbn [py_get] in E.
  unfold bindM at 1 in E. rewrite Ht in E.
  rewrite (report_no_items_dict cfg m items w0 Hmd) in E. cbn [fst snd] in E.
  unfold bindM at 1 in E. rewrite write_snapshot_encodable in E by done.
  unfold bindM at 1, lift in E. rewrite Hn in E.
  rewrite log_run_native in E by done.
  injection E as <- <-. eexists. split; [reflexivity|]. simpl.
  by rewrite Hs, Hl, Hsn, Hdb.
Qed.

Lemma snapshot_name_time_of_day t t' :
  hour t = hour t' -> minute t = minute t' -> snapshot_name t = snapshot_name t'.
Proof. intros Hh Hmin. unfold snapshot_name, strftime_time_of_day. by rewrite Hh, Hmin. Qed.

Lemma stamped_has_id m d : dict_has "_id" (stamp m (stringify_ids d)) = dict_has "_id" d.
Proof.
  unfold dict_has. rewrite stamp_frame by (simpl; intuition discriminate).
  rewrite dict_get_stringify_ids. by destruct (dict_get "_id" d).
Qed.

Lemma save_item_passes server m c item :
  passes_through item (save_item server (VDict m) c item).1.2.
Proof.
  destruct item as [| | | | | |d| |]; try done.
  unfold save_item. rewrite insert_one_spec. cbn [fst snd passes_through].
  eexists. split; [reflexivity|].
  intros k Hk Hid. rewrite <- dict_get_stringify_ids.
  rewrite <- (stamp_frame m (stringify_ids d) k Hk).
  destruct (String.eqb_spec k "_id") as [->|Hne]; [|by apply with_id_frame].
  destruct Hid as [|Hhas]; [done|].
  unfold with_id. by rewrite stamped_has_id, Hhas.
Qed.

Lemma save_loop_passes server m l : forall c,
  Forall2 passes_through l (items_after (save_loop server (VDict m) c l)).
Proof.
  induction l as [|item rest IH]; intros c; simpl; [constructor|].
  pose proof (save_item_passes server m c item) as Hitem.
  destruct (save_item server (VDict m) c item) as [[c' item'] failure].
  simpl. constructor; [exact Hitem | apply IH].
Qed.

(** A turn whose fetch yields a list that starts with a [dict]: the body of
    the [try] runs to its end, whatever the server answers to the inserts. *)
Lemma poll_attempt_on_list cfg e w item rest :
  env_native e = true -> json_native (source_metadata cfg) = true ->
  is_dict (source_metadata cfg) = true ->
  fetched e = Ok (VList (VDict item :: rest)) ->
  exists w1,
    poll_attempt cfg e w = (w1, Ok tt) /\
    run_log w1 = run_log w ++ [success_entry e (S (length rest)) (latest_of item)].
Proof.
  intros He Hm Hd Hf.
  pose proof (poll_attempt_spec cfg e w He Hm) as Hspec.
  destruct (poll_attempt cfg e w) as [w1 r] eqn:E. cbn [fst snd] in Hspec.
  destruct r as [[]|x].
  - exists w1. split; [done|].
    destruct Hspec as (items & items' & latest & n & Hf' & _ & Hlog & Hcase).
    rewrite Hf in Hf'. injection Hf' as <-.
    destruct Hcase as [(Ht & _)|(item0 & rest0 & m & [= -> ->] & _ & _ & -> & -> & _)];
      [done|exact Hlog].
  - exfalso. clear Hspec.
    unfold poll_attempt, bindM at 1 in E.
    pose proof (fetch_result e w) as Hr.
    destruct (run_actor_and_get_items e w) as [w0 r0]. simpl in Hr. subst r0.
    rewrite Hf in E. pose proof (fetched_native e _ He Hf) as Hitems.
    simpl in Hitems. apply andb_true_iff in Hitems as [Hitem Hrest].
    unfold bindM at 1, lift at 1 in E. cbn [py_len] in E.
    unfold bindM at 1, lift at 1 in E.
    destruct (source_metadata cfg) as [| | | | | |m| |] eqn:Emd; try done.
    cbn [py_get] in E. unfold bindM at 1 in E. cbn [truthy] in E.
    rewrite (persist_and_checkpoint_list cfg e w0 m item rest Emd Hitem) in E.
    unfold bindM at 1 in E. cbn [fst snd] in E.
    rewrite write_snapshot_encodable in E.
    2:{ apply save_loop_encodable; [done|]. simpl. by rewrite Hitem, Hrest. }
    unfold bindM at 1, lift in E. cbn [py_len] in E.
    rewrite log_run_native in E; [done|].
    apply log_entry_native; [done| |done]. by apply latest_of_native.
Qed.

Lemma stringify_id_without_id v :
  (forall f, v = VDict f -> dict_get "_id" f = None) -> stringify_id v = v.
Proof. intros Hv. destruct v; try done. simpl. by rewrite (Hv d). Qed.

Lemma stringify_id_with_id f i :
  dict_get "_id" f = Some i ->
  exists f',
    stringify_id (VDict f) = VDict f' /\
    dict_get "_id" f' = Some (VStr (py_str i)) /\
    forall k, k <> "_id" -> dict_get k f' = dict_get k f.
Proof.
  intros Hi. simpl. rewrite Hi. eexists. split; [reflexivity|].
  split; [apply dict_get_set_eq|]. intros k Hk. by apply dict_get_set_ne.
Qed.

(** ** Lemmas on what the steps of a turn leave alone *)





















(** ** Lemmas on the start-up *)





(** ** Lemmas on the place of an item in the batch *)

Lemma save_loop_app server metadata l1 l2 : forall c,
  let r1 := save_loop server metadata c l1 in
  let r2 := save_loop server metadata (db_after r1) l2 in
  save_loop server metadata c (l1 ++ l2) =
    {| success_count := success_count r1 + success_count r2;
       items_after := items_after r1 ++ items_after r2;
       db_after := db_after r2;
       warnings := warnings r1 ++ warnings r2 |}.
Proof.
  induction l1 as [|item rest IH]; intros c; simpl.
  - by destruct (save_loop server metadata c l2).
  - destruct (save_item server metadata c item) as [[c' item'] failure].
    rewrite IH. simpl. by destruct failure.
Qed.


(** * The properties of the specification *)

(** ** C1: when the checkpoint advances *)




(** ** C2: a turn that raises *)




(** Why the checkpoint part speaks of JSON types.  The model lets a body
    hold any value; on a timestamp of a class no JSON parser returns, the
    checkpoint write fails after [open(path, "w")] has emptied the file, and
    the turn is logged as ERROR with the checkpoint lost. *)
Example unencodable_timestamp_empties_the_checkpoint :
  let e := answering (VList [VDict [("timestamp", VObject "datetime" "2024-01-01 00:00:00")]]) in
  let w' := world_of (cycle acme_settings e seen_world) in
  env_native e = false /\
  state_file w' = Some Corrupt /\
  (status_of <$> last (run_log w')) = Some (Some (VStr "ERROR")).
Proof. vm_compute. done. Qed.

(** ** C3: the four metadata fields *)




(** The scenario's item under the default metadata: what is stored. *)
Example acme_item_is_stamped :
  save_items_to_db (unique_index "url") (VList [acme_item]) default_source_metadata
    (db empty_world)
  = Ok ({| success_count := 1;
           items_after :=
             [VDict [("timestamp", VStr "2024-01-01T00:00:00Z"); ("text", VStr "hi");
                     ("source_type", VStr "facebook"); ("post_type", VStr "post");
                     ("source_name", VStr "Facebook Page"); ("category", VStr "Social Media");
                     ("_id", VObjectId "000000000000000000000000")]];
           db_after :=
             {| docs :=
                  [VDict [("timestamp", VStr "2024-01-01T00:00:00Z"); ("text", VStr "hi");
                          ("source_type", VStr "facebook"); ("post_type", VStr "post");
                          ("source_name", VStr "Facebook Page");
                          ("category", VStr "Social Media");
                          ("_id", VObjectId "000000000000000000000000")]];
                inserts := 1 |};
           warnings := [] |},
        VList [VDict [("timestamp", VStr "2024-01-01T00:00:00Z"); ("text", VStr "hi");
                      ("source_type", VStr "facebook"); ("post_type", VStr "post");
                      ("source_name", VStr "Facebook Page"); ("category", VStr "Social Media");
                      ("_id", VObjectId "000000000000000000000000")]]).
Proof. reflexivity. Qed.

(** An item's [pageNameSource] names the source when the metadata has no
    [source_name]. *)
Example page_name_source_is_the_fallback :
  stamp [("category", VStr "News")] [("pageNameSource", VStr "Acme Corp")]
  = [("pageNameSource", VStr "Acme Corp"); ("source_type", VStr "facebook");
     ("post_type", VStr "post"); ("source_name", VStr "Acme Corp");
     ("category", VStr "News")].
Proof. reflexivity. Qed.

(** Under a configuration without the entry, the default of line 132
    supplies the name, and the item's [pageNameSource] is not consulted:
    the path of C4. *)
Example default_metadata_names_the_documents :
  startup acme_config = Ok acme_settings /\
  docs (db (world_of (cycle acme_settings (answering (VList [corp_item])) empty_world)))
    = [VDict [("timestamp", VStr "2024-01-01T00:00:00Z"); ("pageNameSource", VStr "Acme Corp");
              ("source_type", VStr "facebook"); ("post_type", VStr "post");
              ("source_name", VStr "Facebook Page"); ("category", VStr "Social Media");
              ("_id", VObjectId "000000000000000000000000")]].
Proof. vm_compute. done. Qed.

(** ** C4: the start-URL scenario *)

(** C4, evaluated on the code.  The configuration loads into the settings
    below; after one turn on the scenario's response the checkpoint file
    holds the item's timestamp and the collection holds one document, as the
    scenario says; but the document's [source_name] is the default
    "Facebook Page", not "Acme": without a [source_metadata] entry the
    default dictionary of line 132 already holds a [source_name], so the
    test of line 144 never lets the start URL name the source. *)
Theorem acme_scenario_evaluated :
  startup acme_config = Ok acme_settings /\
  state_file (world_of (cycle acme_settings (answering (VList [acme_item])) empty_world))
    = Some (Doc (VDict [("lastTimestamp", VStr "2024-01-01T00:00:00Z")])) /\
  docs (db (world_of (cycle acme_settings (answering (VList [acme_item])) empty_world)))
    = [VDict [("timestamp", VStr "2024-01-01T00:00:00Z"); ("text", VStr "hi");
              ("source_type", VStr "facebook"); ("post_type", VStr "post");
              ("source_name", VStr "Facebook Page"); ("category", VStr "Social Media");
              ("_id", VObjectId "000000000000000000000000")]].
Proof. vm_compute. done. Qed.

(** The sibling path: with an empty [source_metadata] entry in the same
    configuration, the name is derived from the start URL. *)
Example empty_metadata_derives_the_name :
  extract_source_metadata
    (VDict [("actorId", VStr "X");
            ("inputTemplate",
             VDict [("startUrls", VList [VDict [("url", VStr "https://facebook.com/Acme")]])]);
            ("frequency", VInt 1); ("source_metadata", VDict [])])
  = Ok (VDict [("source_name", VStr "Acme")], [VStr "https://facebook.com/Acme"]).
Proof. reflexivity. Qed.

(** ** C5: insert failures *)



(** ** C6: the empty envelope *)

(** C6, as amended.  In a turn that got past lines 233-244, under source
    metadata that is an object, when the response is not an HTTP error and
    its body is an envelope whose [data] is the empty list: the fetch yields
    the empty list, the checkpoint file and the collection are as they
    were, and one Run Record is appended, with status SUCCEEDED, [itemCount]
    0, no timestamp and no error. *)
Theorem empty_envelope_cycle cfg e w res d :
  post e = Responded res -> raise_for_status res = Ok tt ->
  json res = Ok (VDict d) -> dict_get "data" d = Some (VList []) ->
  is_dict (source_metadata cfg) = true ->
  raised (prepare cfg e w) = false ->
  let w' := world_of (cycle cfg e w) in
  (run_actor_and_get_items e w).2 = Ok (VList []) /\
  state_file w' = state_file w /\
  db w' = db w /\
  exists entry,
    run_log w' = run_log w ++ [VDict entry] /\
    VDict entry = success_entry e 0 VNone /\
    dict_get "status" entry = Some (VStr "SUCCEEDED") /\
    dict_get "itemCount" entry = Some (VInt 0) /\
    dict_get "latestTimestamp" entry = Some VNone /\
    dict_get "error" entry = Some VNone /\
    dict_get "runId" entry = Some (VStr (strftime_run_id (clock_run_id e))) /\
    dict_get "runAt" entry = Some (VStr (isoformat_utc (clock_log e) +:+ "Z")).
Proof.
  intros Hpost Hstatus Hjson Hdata Hmd Hprep.
  assert (fetched e = Ok (VList [])) as Hf.
  { unfold fetched. rewrite Hpost, Hstatus, Hjson. simpl.
    unfold dict_get_or. by rewrite Hdata. }
  split; [by rewrite fetch_result|].
  unfold cycle. destruct (prepare cfg e w); [|done].
  destruct (source_metadata cfg) as [| | | | | |m| |] eqn:Em; try done.
  destruct (poll_attempt_no_items cfg e w (VList []) 0 m Hf eq_refl eq_refl Em eq_refl)
    as (w1 & -> & Hs & Hdb & _ & Hl).
  rewrite finish_ok. split; [exact Hs|]. split; [exact Hdb|].
  exists [("runAt", VStr (isoformat_utc (clock_log e) +:+ "Z"));
          ("runId", VStr (strftime_run_id (clock_run_id e)));
          ("status", VStr "SUCCEEDED"); ("itemCount", VInt 0); ("latestTimestamp", VNone);
          ("error", VNone)].
  split; [exact Hl|]. by repeat split.
Qed.

Lemma empty_envelope_cycle_witness :
  let e := answering (VDict [("data", VList [])]) in
  (exists res, post e = Responded res /\ raise_for_status res = Ok tt /\
               json res = Ok (VDict [("data", VList [])])) /\
  dict_get "data" [("data", VList [])] = Some (VList []) /\
  is_dict (source_metadata acme_settings) = true /\
  raised (prepare acme_settings e seen_world) = false /\
  let w' := world_of (cycle acme_settings e seen_world) in
  (run_actor_and_get_items e seen_world).2 = Ok (VList []) /\
  state_file w' = state_file seen_world /\
  db w' = db seen_world /\
  exists entry,
    run_log w' = run_log seen_world ++ [VDict entry] /\
    dict_get "status" entry = Some (VStr "SUCCEEDED") /\
    dict_get "itemCount" entry = Some (VInt 0).
Proof.
  split; [eexists; repeat split; reflexivity|].
  do 3 (split; [reflexivity|]).
  destruct (empty_envelope_cycle acme_settings (answering (VDict [("data", VList [])]))
              seen_world
              {| status_code := 200; text := ""; http_error := "";
                 json := Ok (VDict [("data", VList [])]) |}
              [("data", VList [])] eq_refl eq_refl eq_refl eq_refl eq_refl eq_refl)
    as (Hf & Hs & Hdb & entry & Hl & _ & Hst & Hn & _).
  split; [exact Hf|]. split; [exact Hs|]. split; [exact Hdb|].
  exists entry. split; [exact Hl|]. split; [exact Hst | exact Hn].
Defined.

(** C6 as stated fails under source metadata that is not an object.  The
    configuration below has no start URLs and a string for
    [source_metadata]: it loads, each turn gets past lines 233-244 and the
    fetch returns the empty envelope, but [source_metadata.get] on line 250
    raises, and the Run Record appended is ERROR, not SUCCEEDED. *)
Lemma empty_envelope_under_text_metadata :
  let e := answering (VDict [("data", VList [])]) in
  let w' := world_of (cycle text_metadata_settings e seen_world) in
  startup text_metadata_config = Ok text_metadata_settings /\
  raised (prepare text_metadata_settings e seen_world) = false /\
  (run_actor_and_get_items e seen_world).2 = Ok (VList []) /\
  run_log w' =
    run_log seen_world ++
      [VDict [("runAt", VStr "2024-01-02T15:04:05+00:00Z"); ("runId", VNone);
              ("status", VStr "ERROR"); ("itemCount", VInt 0); ("latestTimestamp", VNone);
              ("error", VStr "'str' object has no attribute 'get'")]].
Proof. vm_compute. done. Qed.

(** ** C7: the snapshot file *)




(** Two days, the same minute of the day: the same file. *)
Example snapshot_name_ignores_the_date :
  snapshot_name sample_time
  = snapshot_name {| year := 2025; month := 7; day := 30; hour := 15; minute := 4;
                     second := 59; microsecond := 1 |}.
Proof. reflexivity. Qed.

(** ** C8: what persistence leaves of an item *)

(** C8, as amended.  [save_items_to_db] on a list of items, under metadata
    that is a [dict], does not raise; the documents it adds to the
    collection are among the items as the loop left them; and an item that
    is an object keeps, under every key other than the four metadata keys
    (and other than an [_id] the item did not have, which the driver adds),
    the value it had, with this exception: where that value is itself an
    object with an [_id] entry, the entry is replaced by its string form,
    the other entries of that object staying as they were. *)
Theorem item_fields_pass_through srv m l c :
  (match save_items_to_db srv (VList l) (VDict m) c with
   | Ok (r, _) =>
       Forall2 passes_through l (items_after r) /\
       exists new, docs (db_after r) = docs c ++ new /\ sublist new (items_after r)
   | Raise _ => False
   end) /\
  (forall v, (forall f, v = VDict f -> dict_get "_id" f = None) -> stringify_id v = v) /\
  (forall f i,
     dict_get "_id" f = Some i ->
     exists f',
       stringify_id (VDict f) = VDict f' /\
       dict_get "_id" f' = Some (VStr (py_str i)) /\
       forall k, k <> "_id" -> dict_get k f' = dict_get k f).
Proof.
  split; [|split; [apply stringify_id_without_id | apply stringify_id_with_id]].
  simpl. split; [apply save_loop_passes|].
  destruct (save_loop_counts srv (VDict m) l c) as (new & Hdocs & _ & _ & _ & Hsub & _).
  eauto.
Qed.

Lemma item_fields_pass_through_witness :
  stringify_id (VDict [("name", VStr "Ann")]) = VDict [("name", VStr "Ann")] /\
  exists f',
    stringify_id (VDict [("_id", VInt 7); ("name", VStr "Ann")]) = VDict f' /\
    dict_get "_id" f' = Some (VStr "7") /\
    dict_get "name" f' = Some (VStr "Ann").
Proof.
  destruct (item_fields_pass_through (unique_index "url") [] [] (db empty_world))
    as (_ & Hwithout & Hwith).
  split.
  - apply Hwithout. intros f [= <-]. reflexivity.
  - destruct (Hwith [("_id", VInt 7); ("name", VStr "Ann")] (VInt 7) eq_refl)
      as (f' & Hf' & Hid & Hrest).
    exists f'. split; [exact Hf'|]. split; [exact Hid|].
    rewrite Hrest; [reflexivity|discriminate].
Defined.

(** C8 as stated fails: a field that is an object with an [_id] does not
    reach the store as fetched.  The author's [_id], the number 7, is stored
    as the string "7". *)
Lemma nested_id_is_rewritten :
  match save_items_to_db (unique_index "url")
          (VList [VDict [("author", VDict [("_id", VInt 7); ("name", VStr "Ann")]);
                         ("text", VStr "hi")]])
          default_source_metadata (db empty_world) with
  | Ok (r, _) =>
      docs (db_after r) =
        [VDict [("author", VDict [("_id", VStr "7"); ("name", VStr "Ann")]);
                ("text", VStr "hi");
                ("source_type", VStr "facebook"); ("post_type", VStr "post");
                ("source_name", VStr "Facebook Page"); ("category", VStr "Social Media");
                ("_id", VObjectId "000000000000000000000000")]]
  | Raise _ => False
  end.
Proof. vm_compute. done. Qed.

(** ** C9: what the Run Logger can encode *)

(** C9, as amended.  [log_run] on a record made of JSON types and
    [ObjectId]s appends one line and does not raise; the line is the record
    with every [ObjectId] replaced by its string, and is made of JSON types
    only. *)
Theorem log_run_encodes_object_ids data w :
  mongo_encodable data = true ->
  log_run data w = (set_run_log (run_log w ++ [ids_as_strings data]) w, Ok tt) /\
  json_native (ids_as_strings data) = true.
Proof.
  intros Hd. split; [|by apply ids_as_strings_native].
  unfold log_run. by rewrite json_encode_mongo.
Qed.

Lemma log_run_encodes_object_ids_witness :
  let data := VDict [("status", VStr "SUCCEEDED"); ("doc", VObjectId (oid_hex 10))] in
  mongo_encodable data = true /\
  log_run data empty_world
    = (set_run_log [VDict [("status", VStr "SUCCEEDED"); ("doc", VStr "00000000000000000000000a")]]
         empty_world, Ok tt) /\
  json_native (ids_as_strings data) = true.
Proof.
  intros data. split; [reflexivity|].
  apply (log_run_encodes_object_ids data empty_world). reflexivity.
Defined.

(** C9 as stated fails: the fallback to a string is for [ObjectId] alone.
    A record holding an object of another class that is not a JSON type,
    here a [datetime], is not appended: the encoder raises [TypeError]. *)
Lemma log_run_rejects_other_objects :
  log_run (VDict [("runAt", VObject "datetime" "2024-01-01 00:00:00")]) empty_world
  = (empty_world, Raise (type_error "Object of type datetime is not JSON serializable")).
Proof. reflexivity. Qed.

(** ** C10: loading the checkpoint *)

(** C10.  [load_state] gives the zero checkpoint for an absent state file;
    for a file that is there it never falls back to the zero checkpoint: it
    gives that checkpoint only if the file holds it.  On a file that is not
    JSON it raises, and since the call stands before the [try], the turn
    ends the loop with that exception: the world, and so the run log, is as
    it was, and no further turn begins. *)
Theorem load_state_defaults_only_when_absent cfg e w :
  load_state None = Ok zero_checkpoint /\
  (forall f, load_state f = Ok zero_checkpoint -> f = None \/ f = Some (Doc zero_checkpoint)) /\
  (state_file w = Some Corrupt ->
   load_state (state_file w) = Raise json_decode_error /\
   cycle cfg e w = Crashed json_decode_error w /\
   run_log (world_of (cycle cfg e w)) = run_log w /\
   forall es, run cfg (e :: es) w = Crashed json_decode_error w).
Proof.
  split; [done|]. split.
  - intros [[v|]|]; simpl; [|done|by left]. intros [= ->]. by right.
  - intros Hc. rewrite Hc. split; [done|].
    assert (cycle cfg e w = Crashed json_decode_error w) as Hcycle.
    { unfold cycle, prepare. by rewrite Hc. }
    rewrite Hcycle. repeat split. intros es. simpl. by rewrite Hcycle.
Qed.

Lemma load_state_defaults_only_when_absent_witness :
  state_file corrupt_world = Some Corrupt /\
  load_state (state_file corrupt_world) = Raise json_decode_error /\
  cycle acme_settings timing_out corrupt_world = Crashed json_decode_error corrupt_world /\
  run_log (world_of (cycle acme_settings timing_out corrupt_world)) = run_log corrupt_world /\
  forall es, run acme_settings (timing_out :: es) corrupt_world
             = Crashed json_decode_error corrupt_world.
Proof.
  split; [reflexivity|].
  apply (load_state_defaults_only_when_absent acme_settings timing_out corrupt_world).
  reflexivity.
Defined.

(** * Further properties of the code *)

(** ** Persistence, further *)

Lemma save_loop_skips server metadata l : forall c,
  Forall (fun item => (save_item server metadata c item).1.1 = c /\
                      (save_item server metadata c item).2 <> None) l ->
  success_count (save_loop server metadata c l) = 0 /\
  db_after (save_loop server metadata c l) = c /\
  length (warnings (save_loop server metadata c l)) = length l.
Proof.
  induction l as [|item rest IH]; intros c Hall; [done|].
  inversion Hall as [|? ? [Hc Hf] Hrest]; subst. simpl.
  destruct (save_item server metadata c item) as [[c' item'] failure].
  simpl in Hc, Hf. subst c'. destruct failure as [x|]; [|done].
  destruct (IH c Hrest) as (H1 & H2 & H3). simpl. by rewrite H3.
Qed.

(** X1.  [save_items_to_db] on items that are a [str] or a [dict] stores
    nothing: iterating yields characters or keys, each of which fails in the
    loop body; the count is 0, the collection is untouched, the items are
    unchanged, and there is one [WARN] line for each element. *)
Theorem save_items_on_text_or_object server items metadata c :
  (exists s, items = VStr s) \/ (exists d, items = VDict d) ->
  exists r,
    save_items_to_db server items metadata c = Ok (r, items) /\
    success_count r = 0 /\ db_after r = c /\
    py_len items = Ok (length (warnings r)).
Proof.
  intros [[s ->]|[d ->]]; simpl; eexists; (split; [reflexivity|]).
  - assert (Forall (fun item => (save_item server metadata c item).1.1 = c /\
                                (save_item server metadata c item).2 <> None) (chars s)) as Hall.
    { unfold chars. apply Forall_fmap, Forall_true. by intros ?. }
    destruct (save_loop_skips server metadata (chars s) c Hall) as (H1 & H2 & H3).
    rewrite H1, H2, H3. unfold chars. rewrite length_fmap.
    repeat split. f_equal. clear. induction s; simpl; auto.
  - assert (Forall (fun item => (save_item server metadata c item).1.1 = c /\
                                (save_item server metadata c item).2 <> None)
                   ((fun kv => VStr (fst kv)) <$> d)) as Hall.
    { apply Forall_fmap, Forall_true. by intros ?. }
    destruct (save_loop_skips server metadata _ c Hall) as (H1 & H2 & H3).
    rewrite H1, H2, H3. by rewrite length_fmap.
Qed.

Lemma save_loop_without_metadata server metadata l c :
  is_dict metadata = false ->
  success_count (save_loop server metadata c l) = 0 /\
  db_after (save_loop server metadata c l) = c /\
  length (warnings (save_loop server metadata c l)) = length l.
Proof.
  intros Hmd. apply save_loop_skips.
  apply Forall_true. intros item. unfold save_item.
  destruct item; try done; destruct metadata; done.
Qed.

(** X2.  Under metadata that is not a [dict], [save_items_to_db] on a list
    stores nothing: every item fails (on [metadata.get], or on [item.items]),
    the count is 0, the collection is untouched, and each item gives one
    [WARN] line. *)
Theorem metadata_not_a_dict_stores_nothing server metadata l c :
  is_dict metadata = false ->
  match save_items_to_db server (VList l) metadata c with
  | Ok (r, _) =>
      success_count r = 0 /\ db_after r = c /\ length (warnings r) = length l
  | Raise _ => False
  end.
Proof. intros Hmd. simpl. by apply save_loop_without_metadata. Qed.

(** X3.  Saving a batch in two parts is saving it whole: the second part
    starts from the collection the first left, the counts add up, and the
    items and the [WARN] lines follow each other. *)
Theorem batches_compose server metadata l1 l2 c :
  save_items_to_db server (VList (l1 ++ l2)) metadata c =
    (first <- save_items_to_db server (VList l1) metadata c ;;
     second <- save_items_to_db server (VList l2) metadata (db_after first.1) ;;
     Ok ({| success_count := success_count first.1 + success_count second.1;
            items_after := items_after first.1 ++ items_after second.1;
            db_after := db_after second.1;
            warnings := warnings first.1 ++ warnings second.1 |},
         VList (items_after first.1 ++ items_after second.1))).
Proof.
  unfold save_items_to_db. cbn [py_iter bind fst].
  pose proof (save_loop_app server metadata l1 l2 c) as H. cbv zeta in H. by rewrite H.
Qed.

Lemma has_key_app key k l1 l2 : has_key key k l1 = true -> has_key key k (l1 ++ l2) = true.
Proof. unfold has_key. rewrite existsb_app. by intros ->. Qed.

Lemma unique_index_verdict key c doc :
  unique_index key c doc = None <-> has_key key (index_key key doc) (docs c) = false.
Proof. unfold unique_index, has_key. by destruct (existsb _ _). Qed.

(** The index key of the document sent for the item [d] does not depend on
    the collection. *)
Lemma sent_key_fixed m d c c' :
  index_key "url" (VDict (with_id c (stamp m (stringify_ids d)))) =
  index_key "url" (VDict (with_id c' (stamp m (stringify_ids d)))).
Proof. unfold index_key, dict_get_or. by rewrite !with_id_frame by key_ne. Qed.

Lemma save_item_filed m c d :
  let c' := (save_item (unique_index "url") (VDict m) c (VDict d)).1.1 in
  has_key "url" (index_key "url" (VDict (with_id c (stamp m (stringify_ids d))))) (docs c') = true.
Proof.
  unfold save_item. rewrite insert_one_spec. cbn [fst snd docs].
  destruct (unique_index "url" c _) as [x|] eqn:E.
  - rewrite app_nil_r. destruct (has_key "url" _ (docs c)) eqn:Eh; [done|].
    apply unique_index_verdict in Eh. congruence.
  - unfold has_key. rewrite existsb_app. simpl. rewrite String.eqb_refl.
    by rewrite orb_true_r.
Qed.

Lemma save_loop_filed m l : forall c d c0,
  In (VDict d) l ->
  has_key "url" (index_key "url" (VDict (with_id c0 (stamp m (stringify_ids d)))))
    (docs (db_after (save_loop (unique_index "url") (VDict m) c l))) = true.
Proof.
  induction l as [|item rest IH]; intros c d c0 Hin; [done|].
  cbn [save_loop]. pose proof (save_item_filed m c) as Hfiled.
  destruct (save_item (unique_index "url") (VDict m) c item) as [[c' item'] failure] eqn:E.
  cbn [db_after]. destruct Hin as [->|Hin]; [|by apply IH].
  specialize (Hfiled d). rewrite E in Hfiled. cbn [fst] in Hfiled.
  destruct (save_loop_counts (unique_index "url") (VDict m) rest c') as (new & -> & _).
  apply has_key_app. by rewrite (sent_key_fixed m d c0 c).
Qed.

Lemma save_loop_all_filed m l : forall c,
  (forall d c0, In (VDict d) l ->
     has_key "url" (index_key "url" (VDict (with_id c0 (stamp m (stringify_ids d))))) (docs c)
       = true) ->
  success_count (save_loop (unique_index "url") (VDict m) c l) = 0 /\
  docs (db_after (save_loop (unique_index "url") (VDict m) c l)) = docs c.
Proof.
  induction l as [|item rest IH]; intros c Hall; [done|].
  simpl.
  destruct (save_item (unique_index "url") (VDict m) c item) as [[c' item'] failure] eqn:E.
  assert (docs c' = docs c /\ failure <> None) as [Hdocs Hfail].
  { unfold save_item in E. destruct item; try (by injection E as <- <- <-).
    rewrite insert_one_spec in E. injection E as <- <- <-. simpl.
    destruct (unique_index "url" c _) as [x|] eqn:Ev; [by rewrite app_nil_r|].
    apply unique_index_verdict in Ev. rewrite Hall in Ev; [done|by left]. }
  destruct (IH c') as [Hcount Hd].
  { intros d c0 Hin. rewrite Hdocs. apply Hall. by right. }
  simpl. destruct failure; [|done]. by rewrite Hd.
Qed.

Lemma saving_a_batch_twice_filed metadata l c :
  let first := save_loop (unique_index "url") metadata c l in
  let second := save_loop (unique_index "url") metadata (db_after first) l in
  success_count second = 0 /\ docs (db_after second) = docs (db_after first).
Proof.
  intros first second. subst second.
  destruct (is_dict metadata) eqn:Hmd.
  - destruct metadata as [| | | | | |m| |]; try done.
    apply save_loop_all_filed. intros d c0 Hin. by apply save_loop_filed.
  - by destruct (save_loop_without_metadata (unique_index "url") metadata l
                   (db_after first) Hmd) as (-> & -> & _).
Qed.

(** X4.  With the unique index on [url] that [create_indices] declares,
    saving the same fetched batch a second time stores nothing: every item
    is rejected or fails as before, the count is 0, the stored documents are
    those of the first save, and each item gives one [WARN] line. *)
Theorem saving_a_batch_twice_stores_it_once metadata l c :
  match save_items_to_db (unique_index "url") (VList l) metadata c with
  | Ok (first, _) =>
      match save_items_to_db (unique_index "url") (VList l) metadata (db_after first) with
      | Ok (second, _) =>
          success_count second = 0 /\
          docs (db_after second) = docs (db_after first) /\
          length (warnings second) = length l
      | Raise _ => False
      end
  | Raise _ => False
  end.
Proof.
  simpl.
  set (first := save_loop (unique_index "url") metadata c l).
  destruct (save_loop_counts (unique_index "url") metadata l (db_after first))
    as (new & _ & _ & Hsum & _).
  destruct (saving_a_batch_twice_filed metadata l c) as [Hcount Hdocs].
  fold first in Hcount, Hdocs.
  rewrite Hcount in Hsum. by rewrite Hcount, Hdocs.
Qed.

(** ** What a turn never undoes *)

Lemma grows_refl w : grows w w.
Proof. by repeat split. Qed.

Lemma grows_trans w1 w2 w3 : grows w1 w2 -> grows w2 w3 -> grows w1 w3.
Proof.
  intros (H1 & H2 & H3) (H1' & H2' & H3').
  repeat split; by etrans.
Qed.

Lemma bindM_grows {A B} (m : M A) (k : A -> M B) :
  keeps_growing m -> (forall a, keeps_growing (k a)) -> keeps_growing (bindM m k).
Proof.
  intros Hm Hk w. unfold bindM. specialize (Hm w).
  destruct (m w) as [w' [a|x]]; [|exact Hm].
  eapply grows_trans; [exact Hm | apply Hk].
Qed.

Lemma lift_grows {A} (r : result A) : keeps_growing (lift r).
Proof. intros w. apply grows_refl. Qed.

Lemma ret_grows {A} (a : A) : keeps_growing (ret a).
Proof. intros w. apply grows_refl. Qed.

Lemma fetch_grows e : keeps_growing (run_actor_and_get_items e).
Proof.
  intros w. unfold run_actor_and_get_items.
  destruct (post e) as [x|res]; [apply grows_refl|].
  destruct (status_code res =? 200)%Z; [apply grows_refl|].
  repeat split; simpl; try done. by apply prefix_app_r.
Qed.

Lemma save_state_grows ts : keeps_growing (save_state ts).
Proof. intros w. unfold save_state. by destruct (json_encode _ _). Qed.

Lemma write_snapshot_grows e items : keeps_growing (write_snapshot e items).
Proof. intros w. unfold write_snapshot. by destruct (json_encode _ _). Qed.

Lemma log_run_grows data : keeps_growing (log_run data).
Proof.
  intros w. unfold log_run. destruct (json_encode _ _); [|apply grows_refl].
  repeat split; simpl; try done. by apply prefix_app_r.
Qed.

Lemma persist_and_checkpoint_grows cfg e items : keeps_growing (persist_and_checkpoint cfg e items).
Proof.
  intros w. unfold persist_and_checkpoint.
  destruct (save_items_to_db _ _ _ _) as [[r items']|x] eqn:E; [|apply grows_refl].
  assert (grows w (set_db (db_after r) w)) as Hdb.
  { unfold save_items_to_db in E. destruct (py_iter items) as [elems|]; [|done].
    injection E as <- _.
    destruct (save_loop_counts (server e) (source_metadata cfg) elems (db w))
      as (new & Hdocs & _).
    repeat split; simpl; try done. rewrite Hdocs. by apply prefix_app_r. }
  eapply grows_trans; [exact Hdb|].
  apply (bindM_grows (lift _)); [apply lift_grows|]. intros _.
  apply (bindM_grows (lift _)); [apply lift_grows|]. intros first.
  apply (bindM_grows (lift _)); [apply lift_grows|]. intros latest_ts.
  apply bindM_grows; [|intros _; apply ret_grows].
  destruct (truthy latest_ts); [apply save_state_grows | apply ret_grows].
Qed.

Lemma poll_attempt_grows cfg e : keeps_growing (poll_attempt cfg e).
Proof.
  unfold poll_attempt.
  apply bindM_grows; [apply fetch_grows|]. intros items.
  apply (bindM_grows (lift _)); [apply lift_grows|]. intros _.
  apply (bindM_grows (lift _)); [apply lift_grows|]. intros _.
  apply bindM_grows.
  - destruct (truthy items); [apply persist_and_checkpoint_grows|].
    unfold report_no_items.
    apply (bindM_grows (lift _)); [apply lift_grows|]. intros _. apply ret_grows.
  - intros outcome.
    apply bindM_grows; [apply write_snapshot_grows|]. intros _.
    apply (bindM_grows (lift _)); [apply lift_grows|]. intros n.
    apply log_run_grows.
Qed.

Lemma cycle_grows cfg e w : grows w (world_of (cycle cfg e w)).
Proof.
  unfold cycle. destruct (prepare cfg e w); [|apply grows_refl].
  pose proof (poll_attempt_grows cfg e w) as Ha.
  destruct (poll_attempt cfg e w) as [w1 [[]|x]]; simpl in Ha.
  - unfold finish. by destruct (py_sleep _).
  - unfold finish. pose proof (log_run_grows
      (log_entry (clock_error e) VNone "ERROR" 0 VNone (VStr (exn_text x))) w1) as Hl.
    unfold log_failure. destruct (log_run _ w1) as [w2 [[]|y]]; simpl in Hl.
    + destruct (py_sleep _); simpl; by eapply grows_trans.
    + simpl. by eapply grows_trans.
Qed.

(** X5.  However many turns the loop makes and however it ends, the
    documents of the collection, the lines of the run log and the lines of
    the error log it started with are still there, in place: a turn only
    appends to them. *)
Theorem the_loop_only_adds cfg es : forall w,
  docs (db w) `prefix_of` docs (db (world_of (run cfg es w))) /\
  run_log w `prefix_of` run_log (world_of (run cfg es w)) /\
  error_log w `prefix_of` error_log (world_of (run cfg es w)).
Proof.
  induction es as [|e es IH]; intros w; simpl; [apply grows_refl|].
  pose proof (cycle_grows cfg e w) as Hc.
  destruct (cycle cfg e w) as [w'|x w']; simpl in Hc; [|exact Hc].
  eapply grows_trans; [exact Hc | apply IH].
Qed.

(** ** Turns, further *)

(** The whole effect of a turn whose fetch yields a list that starts with a
    [dict]. *)
Lemma poll_attempt_list_spec cfg e w m item rest :
  env_native e = true -> source_metadata cfg = VDict m -> json_native (VDict m) = true ->
  fetched e = Ok (VList (VDict item :: rest)) ->
  let r := save_loop (server e) (VDict m) (db w) (VDict item :: rest) in
  exists w1,
    poll_attempt cfg e w = (w1, Ok tt) /\
    db w1 = db_after r /\
    state_file w1 =
      (if truthy (latest_of item)
       then Some (Doc (VDict [("lastTimestamp", latest_of item)]))
       else state_file w) /\
    snapshots w1 =
      <[snapshot_name (clock_filename e) := Doc (snapshot_doc e (VList (items_after r)))]>
        (snapshots w) /\
    run_log w1 = run_log w ++ [success_entry e (S (length rest)) (latest_of item)].
Proof.
  intros He Hmd Hm Hf r.
  assert (json_native (source_metadata cfg) = true) as Hm' by (by rewrite Hmd).
  destruct (poll_attempt_on_list cfg e w item rest He Hm' ltac:(by rewrite Hmd) Hf)
    as (w1 & Ha & _).
  pose proof (poll_attempt_spec cfg e w He Hm') as Hspec.
  rewrite Ha in Hspec. cbn [fst snd] in Hspec.
  destruct Hspec as (items & items' & latest & n & Hf' & Hsnap & Hlog & Hcase).
  rewrite Hf in Hf'. injection Hf' as <-.
  destruct Hcase as [(Ht & _)|(item0 & rest0 & m0 & [= <- <-] & Hmd0 & Hcase)]; [done|].
  rewrite Hmd in Hmd0. injection Hmd0 as <-.
  destruct Hcase as (-> & -> & -> & Hdb & Hs).
  exists w1. by repeat split.
Qed.

Lemma cycle_log cfg e w :
  env_native e = true -> json_native (source_metadata cfg) = true ->
  raised (prepare cfg e w) = false ->
  exists entry,
    run_log (world_of (cycle cfg e w)) = run_log w ++ [entry] /\
    (status_of entry = Some (VStr "SUCCEEDED") \/ status_of entry = Some (VStr "ERROR")).
Proof.
  intros He Hm Hp. unfold cycle. destruct (prepare cfg e w); [|done].
  pose proof (poll_attempt_spec cfg e w He Hm) as Hspec.
  destruct (poll_attempt cfg e w) as [w1 [[]|x]]; cbn [fst snd] in Hspec.
  - rewrite finish_ok.
    destruct Hspec as (items & items' & latest & n & _ & _ & Hlog & _).
    eexists. split; [exact Hlog|]. by left.
  - rewrite finish_raise. destruct Hspec as (_ & Hl & _).
    exists (error_entry e x). split; [|by right].
    destruct (py_sleep _); simpl; by rewrite Hl.
Qed.

(** X6.  When the loop has made its turns without ending, on response
    bodies and metadata made of JSON types, the run log has gained exactly
    one record per turn, each with status SUCCEEDED or ERROR. *)
Theorem one_record_per_turn cfg es : forall w w',
  Forall (fun e => env_native e = true) es -> json_native (source_metadata cfg) = true ->
  run cfg es w = Continue w' ->
  exists entries,
    run_log w' = run_log w ++ entries /\ length entries = length es /\
    Forall (fun entry => status_of entry = Some (VStr "SUCCEEDED") \/
                         status_of entry = Some (VStr "ERROR")) entries.
Proof.
  induction es as [|e es IH]; intros w w' Hes Hm Hrun; simpl in Hrun.
  - injection Hrun as <-. exists []. by rewrite app_nil_r.
  - inversion Hes as [|? ? He Hes']; subst.
    destruct (cycle cfg e w) as [w1|x w1] eqn:Hc; [|done].
    assert (raised (prepare cfg e w) = false) as Hp.
    { unfold cycle in Hc. by destruct (prepare cfg e w). }
    destruct (cycle_log cfg e w He Hm Hp) as (entry & Hlog & Hstatus).
    rewrite Hc in Hlog. simpl in Hlog.
    destruct (IH w1 w' Hes' Hm Hrun) as (entries & Hlog' & Hlen & Hall).
    exists (entry :: entries). rewrite Hlog', Hlog, <- app_assoc. simpl.
    repeat split; auto.
Qed.

(** X7.  A frequency that [time.sleep] rejects (a negative number, a
    string...) ends the loop at the end of its first turn, with the
    exception of [time.sleep]: the turn's Run Record is written, and no
    further turn begins. *)
Theorem bad_frequency_stops_the_loop cfg e w x :
  env_native e = true -> json_native (source_metadata cfg) = true ->
  raised (prepare cfg e w) = false ->
  py_sleep (frequency cfg) = Raise x ->
  exists w' entry,
    cycle cfg e w = Crashed x w' /\
    run_log w' = run_log w ++ [entry] /\
    forall es, run cfg (e :: es) w = Crashed x w'.
Proof.
  intros He Hm Hp Hsleep.
  destruct (cycle_log cfg e w He Hm Hp) as (entry & Hlog & _).
  assert (exists w', cycle cfg e w = Crashed x w') as [w' Hc].
  { unfold cycle. destruct (prepare cfg e w); [|done].
    destruct (poll_attempt cfg e w) as [w1 [[]|y]].
    - unfold finish. rewrite Hsleep. eauto.
    - rewrite finish_raise, Hsleep. eauto. }
  exists w', entry. rewrite Hc in Hlog. simpl in Hlog.
  split; [exact Hc|]. split; [exact Hlog|]. intros es. simpl. by rewrite Hc.
Qed.

(** X8.  A state file holding JSON that is not an object (a list, a
    string, a number...) ends the loop: [state.get] on line 234 raises
    [AttributeError] before the [try], and the world is as it was. *)
Theorem checkpoint_must_be_an_object cfg e w v :
  state_file w = Some (Doc v) -> is_dict v = false ->
  cycle cfg e w = Crashed (attribute_error v "get") w /\
  forall es, run cfg (e :: es) w = Crashed (attribute_error v "get") w.
Proof.
  intros Hs Hv.
  assert (cycle cfg e w = Crashed (attribute_error v "get") w) as Hc.
  { unfold cycle, prepare. rewrite Hs. simpl. by destruct v. }
  split; [exact Hc|]. intros es. simpl. by rewrite Hc.
Qed.

(** X9.  When the request template holds the placeholder and the loaded
    checkpoint is truthy but not a string (a number, say), [str.replace] on
    line 242 raises [TypeError] before the [try]: the loop ends and the
    world is as it was. *)
Theorem placeholder_needs_a_text_checkpoint cfg e w state last_ts text :
  load_state (state_file w) = Ok state ->
  py_get state "lastTimestamp" (VStr "") = Ok last_ts ->
  truthy last_ts = true -> (forall s, last_ts <> VStr s) ->
  is_dict (input_template cfg) = true ->
  json_dumps (input_template cfg) = Ok text -> contains placeholder text = true ->
  exists x,
    cycle cfg e w = Crashed x w /\ exn_class x = "TypeError" /\
    forall es, run cfg (e :: es) w = Crashed x w.
Proof.
  intros Hload Hget Ht Hns Htmpl Hdumps Hcontains.
  assert (exists x, cycle cfg e w = Crashed x w /\ exn_class x = "TypeError") as (x & Hc & Hx).
  { unfold cycle, prepare. rewrite Hload. simpl. rewrite Hget. simpl.
    destruct (input_template cfg) as [| | | | | |t| |]; try done. simpl py_copy. cbn [bind].
    rewrite Hdumps. cbn [bind]. rewrite Hcontains, Ht.
    destruct last_ts; simpl; eauto. by destruct (Hns s). }
  exists x. split; [exact Hc|]. split; [exact Hx|]. intros es. simpl. by rewrite Hc.
Qed.

(** X10.  Two successful turns in a row whose file-name clocks show the
    same hour and minute leave one snapshot file between them: after the
    second, the files under [data/] are those from before the first, with
    that one name set. *)
Theorem same_minute_same_snapshot cfg e1 e2 w w1 w2 :
  env_native e1 = true -> env_native e2 = true ->
  json_native (source_metadata cfg) = true ->
  poll_attempt cfg e1 w = (w1, Ok tt) -> poll_attempt cfg e2 w1 = (w2, Ok tt) ->
  hour (clock_filename e1) = hour (clock_filename e2) ->
  minute (clock_filename e1) = minute (clock_filename e2) ->
  exists doc,
    snapshots w2 = <[snapshot_name (clock_filename e2) := doc]> (snapshots w).
Proof.
  intros He1 He2 Hm Ha1 Ha2 Hh Hmin.
  pose proof (poll_attempt_spec cfg e1 w He1 Hm) as H1. rewrite Ha1 in H1.
  pose proof (poll_attempt_spec cfg e2 w1 He2 Hm) as H2. rewrite Ha2 in H2.
  cbn [fst snd] in H1, H2.
  destruct H1 as (? & items1 & ? & ? & _ & Hs1 & _).
  destruct H2 as (? & items2 & ? & ? & _ & Hs2 & _).
  exists (Doc (snapshot_doc e2 items2)).
  rewrite Hs2, Hs1, (snapshot_name_time_of_day _ _ Hh Hmin).
  apply insert_insert_eq.
Qed.

Lemma json_encode_raises default v :
  (forall obj, exists x, default obj = Raise x /\ exn_class x = "TypeError") ->
  json_native v = false ->
  exists x, json_encode default v = Raise x /\ exn_class x = "TypeError".
Proof.
  intros Hdef.
  induction v as [| | | | |l IH|d IH| |] using value_ind; simpl; try done;
    try (intros _; apply Hdef).
  - intros Hn.
    assert (exists x, (fix go (l0 : list value) : result (list value) :=
               match l0 with
               | [] => Ok []
               | x :: r => x' <- json_encode default x ;; r' <- go r ;; Ok (x' :: r')
               end) l = Raise x /\ exn_class x = "TypeError") as (x & -> & Hx); [|eauto].
    induction IH as [|v l Hv _ IHl]; [done|].
    simpl in Hn. destruct (json_native v) eqn:Ev.
    + rewrite (json_encode_native default v Ev). simpl.
      destruct (IHl Hn) as (x & -> & Hx). eauto.
    + destruct (Hv eq_refl) as (x & -> & Hx). eauto.
  - intros Hn.
    assert (exists x, (fix go (d0 : list (string * value)) : result (list (string * value)) :=
               match d0 with
               | [] => Ok []
               | kv :: r =>
                   x' <- json_encode default (snd kv) ;; r' <- go r ;; Ok ((fst kv, x') :: r')
               end) d = Raise x /\ exn_class x = "TypeError") as (x & -> & Hx); [|eauto].
    induction IH as [|[k v] d Hv _ IHd]; [done|].
    simpl in Hn, Hv. destruct (json_native v) eqn:Ev.
    + simpl. rewrite (json_encode_native default v Ev). simpl.
      destruct (IHd Hn) as (x & -> & Hx). eauto.
    + simpl. destruct (Hv eq_refl) as (x & -> & Hx). eauto.
Qed.

Lemma json_encode_mongo_raises v :
  mongo_encodable v = false ->
  exists x, json_encode MongoJSONEncoder_default v = Raise x /\ exn_class x = "TypeError".
Proof.
  induction v as [| | | | |l IH|d IH| |] using value_ind; simpl; try done;
    try (intros _; eauto; fail).
  - intros Hn.
    assert (exists x, (fix go (l0 : list value) : result (list value) :=
               match l0 with
               | [] => Ok []
               | x :: r =>
                   x' <- json_encode MongoJSONEncoder_default x ;; r' <- go r ;; Ok (x' :: r')
               end) l = Raise x /\ exn_class x = "TypeError") as (x & -> & Hx); [|eauto].
    induction IH as [|v l Hv _ IHl]; [done|].
    simpl in Hn. destruct (mongo_encodable v) eqn:Ev.
    + rewrite (json_encode_mongo v Ev). simpl.
      destruct (IHl Hn) as (x & -> & Hx). eauto.
    + destruct (Hv eq_refl) as (x & -> & Hx). eauto.
  - intros Hn.
    assert (exists x, (fix go (d0 : list (string * value)) : result (list (string * value)) :=
               match d0 with
               | [] => Ok []
               | kv :: r =>
                   x' <- json_encode MongoJSONEncoder_default (snd kv) ;; r' <- go r ;;
                   Ok ((fst kv, x') :: r')
               end) d = Raise x /\ exn_class x = "TypeError") as (x & -> & Hx); [|eauto].
    induction IH as [|[k v] d Hv _ IHd]; [done|].
    simpl in Hn, Hv. destruct (mongo_encodable v) eqn:Ev.
    + simpl. rewrite (json_encode_mongo v Ev). simpl.
      destruct (IHd Hn) as (x & -> & Hx). eauto.
    + simpl. destruct (Hv eq_refl) as (x & -> & Hx). eauto.
Qed.

(** X11.  Saving a timestamp made of JSON types and loading the state
    file back gives that timestamp under [lastTimestamp].  Saving one that
    is not raises [TypeError], and leaves a state file [load_state] then
    fails on, since the file was opened for writing before the dump. *)
Theorem checkpoint_round_trip ts w :
  (json_native ts = true ->
   (save_state ts w).2 = Ok tt /\
   (state <- load_state (state_file (save_state ts w).1) ;;
    py_get state "lastTimestamp" (VStr "")) = Ok ts) /\
  (json_native ts = false ->
   (exists x, (save_state ts w).2 = Raise x /\ exn_class x = "TypeError") /\
   load_state (state_file (save_state ts w).1) = Raise json_decode_error).
Proof.
  split; intros Hts.
  - by rewrite save_state_native.
  - unfold save_state.
    destruct (json_encode_raises JSONEncoder_default (VDict [("lastTimestamp", ts)]))
      as (x & Hx & Hc).
    + intros obj. unfold JSONEncoder_default. eauto.
    + simpl. by rewrite Hts.
    + rewrite Hx. simpl. eauto.
Qed.

(** X12.  [log_run] on a record holding an object that is neither a JSON
    type nor an [ObjectId], at any depth, raises [TypeError] and leaves the
    log, and the rest of the world, as it was. *)
Theorem log_run_writes_nothing_on_failure data w :
  mongo_encodable data = false ->
  exists x, log_run data w = (w, Raise x) /\ exn_class x = "TypeError".
Proof.
  intros Hd. unfold log_run.
  destruct (json_encode_mongo_raises data Hd) as (x & -> & Hx). eauto.
Qed.

(** ** The source client, further *)

(** X13.  When the request is answered: the error log gains one line,
    holding the response text, exactly when the status is not 200; nothing
    else changes; a status from 400 to 599 raises [HTTPError]; any other is
    parsed, so that a 201 or a 302 both logs an error line and yields
    items. *)
Theorem status_decides_the_fetch e w res :
  post e = Responded res ->
  let line := "[" +:+ str_datetime (clock_error_log e) +:+ "] API Error: " +:+ text res in
  let w1 := (run_actor_and_get_items e w).1 in
  let r := (run_actor_and_get_items e w).2 in
  error_log w1 = (if (status_code res =? 200)%Z then error_log w else error_log w ++ [line]) /\
  state_file w1 = state_file w /\ run_log w1 = run_log w /\
  snapshots w1 = snapshots w /\ db w1 = db w /\
  ((400 <= status_code res < 600)%Z -> r = Raise (Exn "HTTPError" (http_error res))) /\
  (~ (400 <= status_code res < 600)%Z ->
   r = (response_data <- json res ;; Ok (extract_items response_data))).
Proof.
  intros Hpost. unfold run_actor_and_get_items. rewrite Hpost. cbn [fst snd].
  unfold raise_for_status.
  split; [by destruct (status_code res =? 200)%Z|].
  repeat (split; [by destruct (status_code res =? 200)%Z|]).
  split; intros Hs.
  - destruct (Z.leb_spec 400 (status_code res)), (Z.ltb_spec (status_code res) 600);
      simpl; (done || lia).
  - destruct (Z.leb_spec 400 (status_code res)), (Z.ltb_spec (status_code res) 600);
      simpl; (done || lia).
Qed.

(** X14.  When the fetch yields items that have no length (an envelope
    whose [data] is null, a number or a boolean), the body of the [try]
    raises [TypeError] at line 249, before anything is persisted: the
    collection, the checkpoint, the snapshots and the run log are as they
    were. *)
Theorem unsized_items_fail_the_turn cfg e w items :
  fetched e = Ok items -> raised (py_len items) = true ->
  exists x w1,
    poll_attempt cfg e w = (w1, Raise x) /\ exn_class x = "TypeError" /\
    state_file w1 = state_file w /\ run_log w1 = run_log w /\
    snapshots w1 = snapshots w /\ db w1 = db w.
Proof.
  intros Hf Hlen.
  destruct (poll_attempt cfg e w) as [w1 r1] eqn:E.
  unfold poll_attempt, bindM at 1 in E.
  pose proof (fetch_result e w) as Hr. pose proof (fetch_frame e w) as (Hs & Hl & Hsn & Hdb).
  destruct (run_actor_and_get_items e w) as [w0 r0]. simpl in Hr, Hs, Hl, Hsn, Hdb. subst r0.
  rewrite Hf in E. unfold bindM at 1, lift at 1 in E.
  destruct items; try done; simpl in E; injection E as <- <-; eauto 10.
Qed.

(** X15.  When the fetch yields a list whose first item is not an object,
    the persist step still runs over the whole list, storing the items that
    are objects, and then [items[0].get] raises [AttributeError]: the
    checkpoint is not advanced and no snapshot is written. *)
Theorem first_item_must_be_an_object cfg e w m first rest :
  fetched e = Ok (VList (first :: rest)) -> is_dict first = false ->
  source_metadata cfg = VDict m ->
  exists w1,
    poll_attempt cfg e w = (w1, Raise (attribute_error first "get")) /\
    db w1 = db_after (save_loop (server e) (VDict m) (db w) (first :: rest)) /\
    state_file w1 = state_file w /\ run_log w1 = run_log w /\ snapshots w1 = snapshots w.
Proof.
  intros Hf Hfirst Hmd.
  destruct (poll_attempt cfg e w) as [w1 r1] eqn:E.
  unfold poll_attempt, bindM at 1 in E.
  pose proof (fetch_result e w) as Hr. pose proof (fetch_frame e w) as (Hs & Hl & Hsn & Hdb).
  destruct (run_actor_and_get_items e w) as [w0 r0]. simpl in Hr, Hs, Hl, Hsn, Hdb. subst r0.
  rewrite Hf in E. unfold bindM at 1, lift at 1 in E. cbn [py_len] in E.
  unfold bindM at 1, lift at 1 in E. rewrite Hmd in E. cbn [py_get] in E.
  unfold bindM at 1 in E. cbn [truthy] in E.
  unfold persist_and_checkpoint in E. rewrite Hmd, Hdb in E.
  cbn -[save_loop] in E.
  destruct (save_loop_first (server e) (VDict m) (db w) first rest) as (tail & Htail).
  rewrite Htail, (save_item_not_dict _ _ _ _ Hfirst) in E.
  destruct first; try done; cbn -[save_loop] in E; injection E as <- <-;
    eexists; (split; [reflexivity|]); simpl; by rewrite ?Hs, ?Hl, ?Hsn.
Qed.

(** X16.  When the first fetched item has no truthy [timestamp], the
    checkpoint is left as it was, whatever timestamps the other items carry;
    the batch is persisted and the turn logs SUCCEEDED. *)
Theorem only_the_first_timestamp_counts cfg e w m item rest :
  env_native e = true -> source_metadata cfg = VDict m -> json_native (VDict m) = true ->
  fetched e = Ok (VList (VDict item :: rest)) ->
  truthy (latest_of item) = false ->
  exists w1,
    poll_attempt cfg e w = (w1, Ok tt) /\
    state_file w1 = state_file w /\
    db w1 = db_after (save_loop (server e) (VDict m) (db w) (VDict item :: rest)) /\
    run_log w1 = run_log w ++ [success_entry e (S (length rest)) (latest_of item)].
Proof.
  intros He Hmd Hm Hf Ht.
  destruct (poll_attempt_list_spec cfg e w m item rest He Hmd Hm Hf)
    as (w1 & Ha & Hdb & Hs & _ & Hl).
  rewrite Ht in Hs. eauto 10.
Qed.

(** X17.  With the unique index on [url], a turn that fetches the batch
    the turn before it fetched stores no further document and leaves the
    checkpoint file as that turn left it; it logs SUCCEEDED with the same
    item count. *)
Theorem polling_a_batch_again_changes_no_data cfg e1 e2 w m item rest :
  env_native e1 = true -> env_native e2 = true ->
  source_metadata cfg = VDict m -> json_native (VDict m) = true ->
  server e1 = unique_index "url" -> server e2 = unique_index "url" ->
  fetched e1 = Ok (VList (VDict item :: rest)) -> fetched e2 = fetched e1 ->
  exists w1 w2,
    poll_attempt cfg e1 w = (w1, Ok tt) /\ poll_attempt cfg e2 w1 = (w2, Ok tt) /\
    docs (db w2) = docs (db w1) /\
    state_file w2 = state_file w1 /\
    run_log w2 = run_log w1 ++ [success_entry e2 (S (length rest)) (latest_of item)].
Proof.
  intros He1 He2 Hmd Hm Hsrv1 Hsrv2 Hf1 Hf2. rewrite Hf1 in Hf2.
  destruct (poll_attempt_list_spec cfg e1 w m item rest He1 Hmd Hm Hf1)
    as (w1 & Ha1 & Hdb1 & Hs1 & _ & _).
  destruct (poll_attempt_list_spec cfg e2 w1 m item rest He2 Hmd Hm Hf2)
    as (w2 & Ha2 & Hdb2 & Hs2 & _ & Hl2).
  exists w1, w2. split; [exact Ha1|]. split; [exact Ha2|].
  split; [|split; [|exact Hl2]].
  - pose proof (saving_a_batch_twice_filed (VDict m) (VDict item :: rest) (db w)) as [_ H].
    rewrite Hdb2, Hdb1, Hsrv1, Hsrv2. exact H.
  - rewrite Hs2, Hs1. by destruct (truthy (latest_of item)).
Qed.

(** ** Configuration, further *)

Lemma prefix_dot c s : String.prefix "." (String c s) = Ascii.eqb "." c.
Proof.
  cbn [String.prefix]. destruct (ascii_dec "." c) as [<-|Hne].
  - by destruct s.
  - symmetry. by apply Ascii.eqb_neq.
Qed.

Lemma contains_dot c s : contains "." (String c s) = Ascii.eqb "." c || contains "." s.
Proof. cbn [contains]. by rewrite prefix_dot. Qed.

Lemma letter_is_no_dot (b : bool) (c : ascii) :
  (is_upper c || is_lower c) = true ->
  Ascii.eqb "." (if b then to_lower c else to_upper c) = false.
Proof.
  destruct b; destruct c as [[] [] [] [] [] [] [] []]; vm_compute; by try discriminate.
Qed.

Lemma title_go_keeps_dots b s : contains "." (title_go b s) = contains "." s.
Proof.
  revert b. induction s as [|c s IH]; intros b; [done|].
  cbn [title_go].
  destruct (is_upper c || is_lower c) eqn:Ec.
  - rewrite !contains_dot, IH, (letter_is_no_dot b c Ec).
    destruct (Ascii.eqb_spec "."%char c) as [<-|]; [|done]. by vm_compute in Ec.
  - by rewrite !contains_dot, IH.
Qed.

Lemma replace_dot_leaves_none s : contains "." (py_replace "." " " s) = false.
Proof.
  unfold py_replace. induction s as [|c s IH]; [done|].
  cbn [replace_go]. rewrite prefix_dot.
  destruct (Ascii.eqb_spec "."%char c) as [<-|Hne].
  - exact IH.
  - rewrite contains_dot, IH. by destruct (Ascii.eqb_spec "."%char c).
Qed.

(** X19.  The source name derived from a URL never contains a dot. *)
Theorem page_name_has_no_dot url name :
  page_name url = Ok name -> contains "." name = false.
Proof.
  destruct url; try done. simpl. intros [= <-].
  unfold py_title. rewrite title_go_keeps_dots. apply replace_dot_leaves_none.
Qed.

(** X18.  [extract_source_metadata] returns the configured metadata as it
    is, or else that metadata with [source_name] alone set: to the page name
    of the first start URL, and only when the configured [source_name] is
    missing or falsy and that URL is a string containing facebook.com. *)
Theorem extraction_only_names_the_source config m md urls :
  py_get config "source_metadata" default_source_metadata = Ok (VDict m) ->
  extract_source_metadata config = Ok (md, urls) ->
  md = VDict m \/
  exists url rest name,
    urls = VStr url :: rest /\
    truthy (dict_get_or "source_name" VNone m) = false /\
    contains "facebook.com" url = true /\
    page_name (VStr url) = Ok name /\
    md = VDict (dict_set "source_name" (VStr name) m).
Proof.
  intros Hmd. unfold extract_source_metadata. rewrite Hmd. cbn [bind].
  destruct (py_getitem config "inputTemplate") as [template|]; [|done]. cbn [bind].
  destruct (py_get template "startUrls" (VList [])) as [raw|]; [|done]. cbn [bind].
  destruct (py_iter raw) as [url_objs|]; [|done]. cbn [bind].
  destruct (map_result _ url_objs) as [start_urls|]; [|done]. cbn [bind].
  destruct start_urls as [|first rest]; [intros [= <- <-]; by left|].
  cbn [py_get bind].
  destruct (truthy (dict_get_or "source_name" VNone m)) eqn:Et; [intros [= <- <-]; by left|].
  destruct (py_in "facebook.com" first) as [[]|] eqn:Ein; cbn [bind];
    [|intros [= <- <-]; by left|done].
  destruct (page_name first) as [name|] eqn:En; [|done]. cbn [bind].
  intros [= <- <-]. right.
  destruct first; try done. simpl in Ein. injection Ein as Ein.
  exists s, rest, name. by repeat split.
Qed.

(** ** The loop, further *)

Lemma failed_fetch_attempt cfg e w :
  raised (fetched e) = true ->
  exists x w1,
    poll_attempt cfg e w = (w1, Raise x) /\ fetched e = Raise x /\
    state_file w1 = state_file w /\ snapshots w1 = snapshots w /\ db w1 = db w /\
    run_log w1 = run_log w.
Proof.
  intros Hf.
  destruct (poll_attempt cfg e w) as [w1 r1] eqn:E.
  unfold poll_attempt, bindM at 1 in E.
  pose proof (fetch_result e w) as Hr. pose proof (fetch_frame e w) as (Hs & Hl & Hsn & Hdb).
  destruct (run_actor_and_get_items e w) as [w0 r0]. simpl in Hr, Hs, Hl, Hsn, Hdb. subst r0.
  destruct (fetched e) as [|x]; [done|]. injection E as <- <-. eauto 10.
Qed.

Lemma failed_fetch_cycle cfg e w :
  raised (fetched e) = true ->
  let w' := world_of (cycle cfg e w) in
  state_file w' = state_file w /\ snapshots w' = snapshots w /\ db w' = db w.
Proof.
  intros Hf. unfold cycle. destruct (prepare cfg e w); [|done].
  destruct (failed_fetch_attempt cfg e w Hf) as (x & w1 & -> & _ & Hs & Hsn & Hdb & _).
  rewrite finish_raise. by destruct (py_sleep _).
Qed.

(** X20.  While every fetch fails (the request raises, the status is an
    HTTP error, or the body is not JSON), the loop changes neither the
    checkpoint file nor the snapshots nor the collection, however many turns
    it makes. *)
Theorem failing_fetches_change_no_data cfg es : forall w,
  Forall (fun e => raised (fetched e) = true) es ->
  let w' := world_of (run cfg es w) in
  state_file w' = state_file w /\ snapshots w' = snapshots w /\ db w' = db w.
Proof.
  induction es as [|e es IH]; intros w Hes; [done|].
  inversion Hes as [|? ? He Hes']; subst. simpl.
  pose proof (failed_fetch_cycle cfg e w He) as (Hs & Hsn & Hdb).
  destruct (cycle cfg e w) as [w1|x w1]; simpl in *; [|done].
  destruct (IH w1 Hes') as (Hs' & Hsn' & Hdb').
  by rewrite Hs', Hsn', Hdb'.
Qed.

(** ** The further properties on sample turns *)

Lemma save_items_on_text_or_object_witness :
  exists r,
    save_items_to_db (unique_index "url") (VStr "ab") default_source_metadata (db empty_world)
      = Ok (r, VStr "ab") /\
    success_count r = 0 /\ db_after r = db empty_world /\
    py_len (VStr "ab") = Ok (length (warnings r)).
Proof.
  apply (save_items_on_text_or_object (unique_index "url") (VStr "ab")
           default_source_metadata (db empty_world)).
  left. by exists "ab".
Defined.

Lemma metadata_not_a_dict_stores_nothing_witness :
  is_dict VNone = false /\
  match save_items_to_db (unique_index "url") (VList [acme_item]) VNone (db empty_world) with
  | Ok (r, _) =>
      success_count r = 0 /\ db_after r = db empty_world /\ length (warnings r) = 1
  | Raise _ => False
  end.
Proof.
  split; [reflexivity|].
  apply (metadata_not_a_dict_stores_nothing (unique_index "url") VNone [acme_item]
           (db empty_world)). reflexivity.
Defined.

Lemma one_record_per_turn_witness :
  let es := [answering (VList [acme_item]); timing_out] in
  let w' := world_of (run acme_settings es empty_world) in
  Forall (fun e => env_native e = true) es /\
  json_native (source_metadata acme_settings) = true /\
  run acme_settings es empty_world = Continue w' /\
  exists entries,
    run_log w' = run_log empty_world ++ entries /\ length entries = 2 /\
    Forall (fun entry => status_of entry = Some (VStr "SUCCEEDED") \/
                         status_of entry = Some (VStr "ERROR")) entries.
Proof.
  intros es w'.
  assert (Forall (fun e => env_native e = true) es) as Hes by (by repeat constructor).
  split; [exact Hes|]. split; [reflexivity|]. split; [reflexivity|].
  apply (one_record_per_turn acme_settings es empty_world w' Hes); reflexivity.
Defined.

Lemma bad_frequency_stops_the_loop_witness :
  env_native timing_out = true /\
  json_native (source_metadata hasty_settings) = true /\
  raised (prepare hasty_settings timing_out empty_world) = false /\
  py_sleep (frequency hasty_settings)
    = Raise (Exn "ValueError" "sleep length must be non-negative") /\
  exists w' entry,
    cycle hasty_settings timing_out empty_world
      = Crashed (Exn "ValueError" "sleep length must be non-negative") w' /\
    run_log w' = run_log empty_world ++ [entry] /\
    forall es, run hasty_settings (timing_out :: es) empty_world
               = Crashed (Exn "ValueError" "sleep length must be non-negative") w'.
Proof.
  do 4 (split; [reflexivity|]).
  apply (bad_frequency_stops_the_loop hasty_settings timing_out empty_world); reflexivity.
Defined.

Lemma checkpoint_must_be_an_object_witness :
  state_file list_state_world = Some (Doc (VList [])) /\
  is_dict (VList []) = false /\
  cycle acme_settings timing_out list_state_world
    = Crashed (attribute_error (VList []) "get") list_state_world /\
  forall es, run acme_settings (timing_out :: es) list_state_world
             = Crashed (attribute_error (VList []) "get") list_state_world.
Proof.
  do 2 (split; [reflexivity|]).
  apply (checkpoint_must_be_an_object acme_settings timing_out list_state_world (VList []));
    reflexivity.
Defined.

Lemma placeholder_needs_a_text_checkpoint_witness :
  load_state (state_file number_state_world) = Ok (VDict [("lastTimestamp", VInt 5)]) /\
  truthy (VInt 5) = true /\
  is_dict (input_template since_settings) = true /\
  (exists text, json_dumps (input_template since_settings) = Ok text /\
                contains placeholder text = true) /\
  exists x,
    cycle since_settings timing_out number_state_world = Crashed x number_state_world /\
    exn_class x = "TypeError" /\
    forall es, run since_settings (timing_out :: es) number_state_world
               = Crashed x number_state_world.
Proof.
  do 3 (split; [reflexivity|]).
  split; [eexists; split; [reflexivity|reflexivity]|].
  eapply (placeholder_needs_a_text_checkpoint since_settings timing_out number_state_world
            (VDict [("lastTimestamp", VInt 5)]) (VInt 5)); try reflexivity.
  intros s. discriminate.
Defined.

Lemma same_minute_same_snapshot_witness :
  let e1 := answering (VList [acme_item]) in
  let e2 := answering (VList []) in
  let w1 := (poll_attempt acme_settings e1 empty_world).1 in
  let w2 := (poll_attempt acme_settings e2 w1).1 in
  env_native e1 = true /\ env_native e2 = true /\
  json_native (source_metadata acme_settings) = true /\
  poll_attempt acme_settings e1 empty_world = (w1, Ok tt) /\
  poll_attempt acme_settings e2 w1 = (w2, Ok tt) /\
  hour (clock_filename e1) = hour (clock_filename e2) /\
  minute (clock_filename e1) = minute (clock_filename e2) /\
  exists doc,
    snapshots w2 = <[snapshot_name (clock_filename e2) := doc]> (snapshots empty_world).
Proof.
  intros e1 e2 w1 w2.
  do 7 (split; [reflexivity|]).
  apply (same_minute_same_snapshot acme_settings e1 e2 empty_world w1 w2); reflexivity.
Defined.

Lemma checkpoint_round_trip_witness :
  (json_native (VStr "2024-01-01T00:00:00Z") = true /\
   (state <- load_state (state_file (save_state (VStr "2024-01-01T00:00:00Z") empty_world).1) ;;
    py_get state "lastTimestamp" (VStr "")) = Ok (VStr "2024-01-01T00:00:00Z")) /\
  (json_native (VObjectId (oid_hex 1)) = false /\
   load_state (state_file (save_state (VObjectId (oid_hex 1)) empty_world).1)
     = Raise json_decode_error).
Proof.
  split.
  - split; [reflexivity|].
    apply (proj1 (checkpoint_round_trip (VStr "2024-01-01T00:00:00Z") empty_world)).
    reflexivity.
  - split; [reflexivity|].
    apply (proj2 (checkpoint_round_trip (VObjectId (oid_hex 1)) empty_world)).
    reflexivity.
Defined.

Lemma log_run_writes_nothing_on_failure_witness :
  let data := VDict [("items", VList [VInt 1; VObject "datetime" "2024-01-01 00:00:00"])] in
  mongo_encodable data = false /\
  exists x, log_run data seen_world = (seen_world, Raise x) /\ exn_class x = "TypeError".
Proof.
  intros data. split; [reflexivity|].
  apply (log_run_writes_nothing_on_failure data seen_world). reflexivity.
Defined.

Lemma status_decides_the_fetch_witness :
  let res := {| status_code := 302; text := "moved"; http_error := "";
                json := Ok (VList [acme_item]) |} in
  let e := {| post := Responded res; server := unique_index "url";
              json_loads := fun _ => Raise json_decode_error;
              clock_error_log := sample_time; clock_run_id := sample_time;
              clock_filename := sample_time; clock_snapshot := sample_time;
              clock_log := sample_time; clock_error := sample_time |} in
  post e = Responded res /\
  error_log (run_actor_and_get_items e empty_world).1
    = ["[2024-01-02 15:04:05] API Error: moved"] /\
  (run_actor_and_get_items e empty_world).2 = Ok (VList [acme_item]).
Proof.
  intros res e. split; [reflexivity|].
  destruct (status_decides_the_fetch e empty_world res eq_refl)
    as (Hlog & _ & _ & _ & _ & _ & Hparsed).
  split; [exact Hlog|]. apply Hparsed. simpl. lia.
Defined.

Lemma unsized_items_fail_the_turn_witness :
  let e := answering (VDict [("data", VNone)]) in
  fetched e = Ok VNone /\ raised (py_len VNone) = true /\
  exists x w1,
    poll_attempt acme_settings e seen_world = (w1, Raise x) /\ exn_class x = "TypeError" /\
    state_file w1 = state_file seen_world /\ run_log w1 = run_log seen_world /\
    snapshots w1 = snapshots seen_world /\ db w1 = db seen_world.
Proof.
  intros e. do 2 (split; [reflexivity|]).
  apply (unsized_items_fail_the_turn acme_settings e seen_world VNone); reflexivity.
Defined.

Lemma first_item_must_be_an_object_witness :
  let e := answering (VList [VStr "x"; acme_item]) in
  fetched e = Ok (VList [VStr "x"; acme_item]) /\
  is_dict (VStr "x") = false /\
  exists w1,
    poll_attempt acme_settings e empty_world = (w1, Raise (attribute_error (VStr "x") "get")) /\
    length (docs (db w1)) = 1 /\
    state_file w1 = state_file empty_world /\ run_log w1 = run_log empty_world /\
    snapshots w1 = snapshots empty_world.
Proof.
  intros e. do 2 (split; [reflexivity|]).
  destruct (first_item_must_be_an_object acme_settings e empty_world
              [("source_type", VStr "facebook"); ("post_type", VStr "post");
               ("source_name", VStr "Facebook Page"); ("category", VStr "Social Media")]
              (VStr "x") [acme_item] eq_refl eq_refl eq_refl)
    as (w1 & Ha & Hdb & Hrest).
  exists w1. split; [exact Ha|]. split; [by rewrite Hdb | exact Hrest].
Defined.

Lemma only_the_first_timestamp_counts_witness :
  let e := answering (VList [VDict [("text", VStr "first")]; acme_item]) in
  env_native e = true /\
  json_native (source_metadata acme_settings) = true /\
  truthy (latest_of [("text", VStr "first")]) = false /\
  exists w1,
    poll_attempt acme_settings e seen_world = (w1, Ok tt) /\
    state_file w1 = state_file seen_world /\
    run_log w1 = run_log seen_world ++ [success_entry e 2 VNone].
Proof.
  intros e. do 3 (split; [reflexivity|]).
  destruct (only_the_first_timestamp_counts acme_settings e seen_world
              [("source_type", VStr "facebook"); ("post_type", VStr "post");
               ("source_name", VStr "Facebook Page"); ("category", VStr "Social Media")]
              [("text", VStr "first")] [acme_item] eq_refl eq_refl eq_refl eq_refl eq_refl)
    as (w1 & Ha & Hs & _ & Hl).
  exists w1. by repeat split.
Defined.

Lemma polling_a_batch_again_changes_no_data_witness :
  let e := answering (VList [acme_item]) in
  env_native e = true /\ server e = unique_index "url" /\
  fetched e = Ok (VList [acme_item]) /\
  exists w1 w2,
    poll_attempt acme_settings e empty_world = (w1, Ok tt) /\
    poll_attempt acme_settings e w1 = (w2, Ok tt) /\
    docs (db w2) = docs (db w1) /\
    state_file w2 = state_file w1 /\
    run_log w2 = run_log w1 ++ [success_entry e 1 (VStr "2024-01-01T00:00:00Z")].
Proof.
  intros e. do 3 (split; [reflexivity|]).
  apply (polling_a_batch_again_changes_no_data acme_settings e e empty_world
           [("source_type", VStr "facebook"); ("post_type", VStr "post");
            ("source_name", VStr "Facebook Page"); ("category", VStr "Social Media")]
           [("timestamp", VStr "2024-01-01T00:00:00Z"); ("text", VStr "hi")] []);
    reflexivity.
Defined.

Lemma extraction_only_names_the_source_witness :
  let config :=
    VDict [("inputTemplate",
            VDict [("startUrls", VList [VStr "https://www.facebook.com/john.doe/"])]);
           ("source_metadata", VDict [("category", VStr "News")])] in
  py_get config "source_metadata" default_source_metadata
    = Ok (VDict [("category", VStr "News")]) /\
  extract_source_metadata config
    = Ok (VDict [("category", VStr "News"); ("source_name", VStr "John Doe")],
          [VStr "https://www.facebook.com/john.doe/"]) /\
  (VDict [("category", VStr "News"); ("source_name", VStr "John Doe")]
     = VDict [("category", VStr "News")] \/
   exists url rest name,
     [VStr "https://www.facebook.com/john.doe/"] = VStr url :: rest /\
     truthy (dict_get_or "source_name" VNone [("category", VStr "News")]) = false /\
     contains "facebook.com" url = true /\
     page_name (VStr url) = Ok name /\
     VDict [("category", VStr "News"); ("source_name", VStr "John Doe")]
       = VDict (dict_set "source_name" (VStr name) [("category", VStr "News")])).
Proof.
  intros config. do 2 (split; [reflexivity|]).
  apply (extraction_only_names_the_source config); reflexivity.
Defined.

Lemma page_name_has_no_dot_witness :
  page_name (VStr "https://www.facebook.com/john.doe/") = Ok "John Doe" /\
  contains "." "John Doe" = false.
Proof.
  split; [reflexivity|].
  apply (page_name_has_no_dot (VStr "https://www.facebook.com/john.doe/")). reflexivity.
Defined.

Lemma failing_fetches_change_no_data_witness :
  let es := [timing_out; timing_out; timing_out] in
  Forall (fun e => raised (fetched e) = true) es /\
  let w' := world_of (run acme_settings es seen_world) in
  state_file w' = state_file seen_world /\ snapshots w' = snapshots seen_world /\
  db w' = db seen_world.
Proof.
  intros es.
  assert (Forall (fun e => raised (fetched e) = true) es) as Hes by (by repeat constructor).
  split; [exact Hes|].
  apply (failing_fetches_change_no_data acme_settings es seen_world Hes).
Defined.
